(** * StrictMTATest: the MTA-STS policy checks of [QuerySts.go]

    A shallow embedding of [QuerySts.go]: the helpers [hasKey],
    [valueForKey], [valuesForKey], [allKeys] and [mxHasMatch], the
    validation block of [main], and then the rest of the program
    ([trimSuffix], [normalizeDomain], [mxRecords], [stsDNSCheck],
    [tlsTest], [queryHTTPSRecord] and [main] as a whole, with the answers
    of the network as an input), together with the properties the
    specification states about them and further properties of the code.

    Go strings are byte sequences: they are modelled by [string], whose
    characters are the 256 values of [ascii].  A Go run-time panic (an
    index or a slice bound out of range) is modelled by [None]. *)

From Stdlib Require Import Strings.String Strings.Ascii.
From Stdlib Require Import Lists.List Bool.Bool ZArith.ZArith Arith.PeanoNat.
From Stdlib Require Import micromega.Lia Sorting.Permutation.
Import ListNotations.

Local Open Scope string_scope.
Local Open Scope list_scope.

(** ** The functions of Go's [strings] package that the program calls *)

Module Strings.

(** [strings.HasPrefix(s, prefix)]: [s] is at least as long as
    [prefix] and starts with its bytes. *)
Fixpoint HasPrefix (s prefix : string) {struct prefix} : bool :=
  match prefix with
  | EmptyString => true
  | String p prefix' =>
      match s with
      | EmptyString => false
      | String c s' => Ascii.eqb c p && HasPrefix s' prefix'
      end
  end.

(** [strings.Index(s, substr)]: the position of the first occurrence of
    [substr] in [s], or [-1]. *)
Fixpoint Index (s substr : string) : Z :=
  if HasPrefix s substr then 0%Z
  else match s with
       | EmptyString => (-1)%Z
       | String _ s' =>
           let r := Index s' substr in
           if (r <? 0)%Z then (-1)%Z else (r + 1)%Z
       end.

(** The slice expression [s[i:]]; it panics unless [0 <= i <= len(s)]. *)
Definition sliceFrom (s : string) (i : Z) : option string :=
  if ((0 <=? i)%Z && (i <=? Z.of_nat (String.length s))%Z)%bool
  then Some (substring (Z.to_nat i) (String.length s - Z.to_nat i) s)
  else None.

(** [strings.Split(s, sep)] for a separator of one byte, which is how
    both call sites use it ([":"] and ["\n"]).  The result always has
    at least one field. *)
Fixpoint Split (s : string) (sep : ascii) : list string :=
  match s with
  | EmptyString => [EmptyString]
  | String c s' =>
      if Ascii.eqb c sep then EmptyString :: Split s' sep
      else match Split s' sep with
           | f :: fs => String c f :: fs
           | [] => [String c EmptyString]
           end
  end.

(** The index expression [fields[i]] on a slice of strings. *)
Definition at_index (fields : list string) (i : nat) : option string :=
  nth_error fields i.

(** *** [strings.TrimSpace]

    Go removes the leading and the trailing white space, as defined by
    Unicode, of the UTF-8 text.  The white-space code points are the six
    ASCII ones, U+0085, U+00A0, U+1680, U+2000..U+200A, U+2028, U+2029,
    U+202F, U+205F and U+3000; a byte sequence that is not the UTF-8
    form of one of them decodes to a rune that is not a space. *)

Definition asciiSpace (c : ascii) : bool :=
  match nat_of_ascii c with
  | 9 | 10 | 11 | 12 | 13 | 32 => true
  | _ => false
  end.

(** The two-byte forms: U+0085 is [C2 85], U+00A0 is [C2 A0]. *)
Definition space2 (c1 c2 : ascii) : bool :=
  match nat_of_ascii c1, nat_of_ascii c2 with
  | 194, 133 | 194, 160 => true
  | _, _ => false
  end.

(** The three-byte forms: U+1680 is [E1 9A 80], U+2000..U+200A are
    [E2 80 80]..[E2 80 8A], U+2028, U+2029 and U+202F are [E2 80 A8],
    [E2 80 A9] and [E2 80 AF], U+205F is [E2 81 9F], U+3000 is
    [E3 80 80]. *)
Definition space3 (c1 c2 c3 : ascii) : bool :=
  let n3 := nat_of_ascii c3 in
  match nat_of_ascii c1, nat_of_ascii c2 with
  | 225, 154 => Nat.eqb n3 128
  | 226, 128 =>
      ((Nat.leb 128 n3 && Nat.leb n3 138)
       || Nat.eqb n3 168 || Nat.eqb n3 169 || Nat.eqb n3 175)%bool
  | 226, 129 => Nat.eqb n3 159
  | 227, 128 => Nat.eqb n3 128
  | _, _ => false
  end.

(** Leading white space, on the bytes in order. *)
Fixpoint trimLeft (s : list ascii) : list ascii :=
  match s with
  | [] => []
  | c1 :: r1 =>
      if asciiSpace c1 then trimLeft r1
      else match r1 with
           | [] => s
           | c2 :: r2 =>
               if space2 c1 c2 then trimLeft r2
               else match r2 with
                    | [] => s
                    | c3 :: r3 =>
                        if space3 c1 c2 c3 then trimLeft r3 else s
                    end
           end
  end.

(** Trailing white space, on the bytes in reverse order: the text ends
    with a space exactly when the reversed bytes start with the
    reversed form of one. *)
Fixpoint trimLeftRev (s : list ascii) : list ascii :=
  match s with
  | [] => []
  | c1 :: r1 =>
      if asciiSpace c1 then trimLeftRev r1
      else match r1 with
           | [] => s
           | c2 :: r2 =>
               if space2 c2 c1 then trimLeftRev r2
               else match r2 with
                    | [] => s
                    | c3 :: r3 =>
                        if space3 c3 c2 c1 then trimLeftRev r3 else s
                    end
           end
  end.

Definition TrimSpace (s : string) : string :=
  string_of_list_ascii
    (rev (trimLeftRev (rev (trimLeft (list_ascii_of_string s))))).

End Strings.

Import Strings.

(** The newline byte and the separators of the program. *)
Definition NL : ascii := ascii_of_nat 10.
Definition COLON : ascii := ":"%char.

(** ** The helpers of [QuerySts.go] *)

(** [make([]string, n, 4)]: a slice of [n] empty strings. *)
Definition make (n : nat) : list string := repeat EmptyString n.

(** [mxHasMatch], lines 91-105.  [None] is the panic of the slice
    expression [mxHost[i:]]. *)
Fixpoint mxHasMatch (declaredMXs : list string) (mxHost : string)
  : option bool :=
  match declaredMXs with
  | [] => Some false
  | mx :: rest =>
      if HasPrefix mx "." then
        let i := Index mxHost "." in
        match sliceFrom mxHost i with
        | None => None
        | Some baseHost =>
            if String.eqb baseHost mx then Some true
            else mxHasMatch rest mxHost
        end
      else if String.eqb mx mxHost then Some true
      else mxHasMatch rest mxHost
  end.

(** [hasKey], lines 107-114. *)
Fixpoint hasKey (rows : list string) (key : string) : bool :=
  match rows with
  | [] => false
  | line :: rest => if HasPrefix line key then true else hasKey rest key
  end.

(** [valueForKey], lines 117-125.  [None] is the panic of [fields[1]]. *)
Fixpoint valueForKey (rows : list string) (key : string) : option string :=
  match rows with
  | [] => Some EmptyString
  | line :: rest =>
      if HasPrefix line key then
        let fields := Split line COLON in
        match at_index fields 1 with
        | None => None
        | Some f => Some (TrimSpace f)
        end
      else valueForKey rest key
  end.

(** The loop of [valuesForKey], lines 129-135, on the slice [results]
    built so far. *)
Fixpoint valuesForKey_loop (rows : list string) (key : string)
  (results : list string) : option (list string) :=
  match rows with
  | [] => Some results
  | line :: rest =>
      if HasPrefix line key then
        let fields := Split line COLON in
        match at_index fields 1 with
        | None => None
        | Some f =>
            let value := TrimSpace f in
            valuesForKey_loop rest key (results ++ [value])
        end
      else valuesForKey_loop rest key results
  end.

(** [valuesForKey], lines 127-137. *)
Definition valuesForKey (rows : list string) (key : string)
  : option (list string) :=
  valuesForKey_loop rows key (make 1).

(** The loop of [allKeys], lines 142-148. *)
Fixpoint allKeys_loop (rows : list string) (keys : list string)
  : option (list string) :=
  match rows with
  | [] => Some keys
  | line :: rest =>
      let fields := Split line COLON in
      match at_index fields 0 with
      | None => None
      | Some f =>
          let key := TrimSpace f in
          if negb (String.eqb key EmptyString)
          then allKeys_loop rest (keys ++ [key])
          else allKeys_loop rest keys
      end
  end.

(** [allKeys], lines 139-150. *)
Definition allKeys (rows : list string) : option (list string) :=
  allKeys_loop rows (make 1).

(** ** The validation block of [main], lines 53-88 *)

(** What the block prints, one constructor per message. *)
Inductive Finding : Type :=
| MissingVersion
| VersionNotSTSv1
| InvalidMode (mode : string)
| MissingMaxAge
| UnknownKey (key : string)
| UndefinedMX (record : string).

(** The text each finding stands for, as [fmt.Println] and [fmt.Printf]
    write it. *)
Definition message (f : Finding) : string :=
  match f with
  | MissingVersion =>
      "Error the policy resource must contain a version field"
        ++ String NL EmptyString
  | VersionNotSTSv1 =>
      "Error version must equal 'STSv1'" ++ String NL EmptyString
  | InvalidMode mode =>
      "Error mode must be one of 'report', 'enforce', 'none' but was "
        ++ mode
  | MissingMaxAge => "Error policy resource should have a 'max_age' field."
  | UnknownKey key =>
      "Error unknown key in policy [" ++ key ++ "]" ++ String NL EmptyString
  | UndefinedMX record =>
      "Error undefined MX record [" ++ record ++ "]"
        ++ String NL EmptyString
  end.

(** A run prints findings and then either returns a value or panics;
    what was printed before a panic stays printed. *)
Module Run.

Definition t (A : Type) : Type := (list Finding * option A)%type.

Definition ret {A} (a : A) : t A := ([], Some a).

Definition bind {A B} (m : t A) (k : A -> t B) : t B :=
  match m with
  | (out, None) => (out, None)
  | (out, Some a) => let (out', r) := k a in (out ++ out', r)
  end.

Definition print (f : Finding) : t unit := ([f], Some tt).

Definition call {A} (r : option A) : t A := ([], r).

Definition when (b : bool) (m : t unit) : t unit :=
  if b then m else ret tt.

Definition printed {A} (m : t A) : list Finding := fst m.

Definition returned {A} (m : t A) : bool :=
  match snd m with Some _ => true | None => false end.

End Run.

Notation "x <- m ;; k" := (Run.bind m (fun x => k))
  (at level 61, m at next level, right associativity).
Notation "m ;;; k" := (Run.bind m (fun _ => k))
  (at level 61, right associativity).

(** The condition of line 65 on the value of [mode]. *)
Definition invalidMode (mode : string) : bool :=
  negb (String.eqb mode "report") && negb (String.eqb mode "enforce")
  && negb (String.eqb mode "none").

(** The condition of line 75 on a key. *)
Definition isUnknownKey (key : string) : bool :=
  negb (String.eqb key "") && negb (String.eqb key "version")
  && negb (String.eqb key "mode") && negb (String.eqb key "max_age")
  && negb (String.eqb key "mx").

(** The loop over [allKeys], lines 74-78. *)
Fixpoint unknownKeys_loop (keys : list string) : Run.t unit :=
  match keys with
  | [] => Run.ret tt
  | key :: rest =>
      Run.when (isUnknownKey key) (Run.print (UnknownKey key)) ;;;
      unknownKeys_loop rest
  end.

(** The loop over [mxRecords], lines 81-87. *)
Fixpoint mxRecords_loop (mxs : list string) (mxRecords : list string)
  : Run.t unit :=
  match mxRecords with
  | [] => Run.ret tt
  | record :: rest =>
      (if (0 <? String.length record)%nat then
         matched <- Run.call (mxHasMatch mxs record) ;;
         Run.when (negb matched) (Run.print (UndefinedMX record))
       else Run.ret tt) ;;;
      mxRecords_loop mxs rest
  end.

(** Lines 56-87 on the rows of the policy resource. *)
Definition validateRows (policyRows mxRecords : list string) : Run.t unit :=
  Run.when (negb (hasKey policyRows "version")) (Run.print MissingVersion) ;;;
  version <- Run.call (valueForKey policyRows "version") ;;
  Run.when (negb (String.eqb version "STSv1")) (Run.print VersionNotSTSv1) ;;;
  mode <- Run.call (valueForKey policyRows "mode") ;;
  Run.when (invalidMode mode) (Run.print (InvalidMode mode)) ;;;
  Run.when (negb (hasKey policyRows "max_age")) (Run.print MissingMaxAge) ;;;
  keys <- Run.call (allKeys policyRows) ;;
  unknownKeys_loop keys ;;;
  mxs <- Run.call (valuesForKey policyRows "mx") ;;
  mxRecords_loop mxs mxRecords.

(** Lines 53-87: [policyResource] is the body that [queryHTTPSRecord]
    returned and [mxRecords] is what [mxRecords(domain)] returned. *)
Definition validate (policyResource : string) (mxRecords : list string)
  : Run.t unit :=
  let policyRows := Split policyResource NL in
  validateRows policyRows mxRecords.

(** ** The notions the specification uses *)

(** The substring before the first [sep] (the whole text when there is
    none) and the substring after it. *)
Fixpoint beforeFirst (s : string) (sep : ascii) : string :=
  match s with
  | EmptyString => EmptyString
  | String c s' =>
      if Ascii.eqb c sep then EmptyString else String c (beforeFirst s' sep)
  end.

Fixpoint afterFirst (s : string) (sep : ascii) : option string :=
  match s with
  | EmptyString => None
  | String c s' => if Ascii.eqb c sep then Some s' else afterFirst s' sep
  end.

(** The key of a line: the substring before the first [':'], trimmed. *)
Definition keyOf (line : string) : string :=
  TrimSpace (beforeFirst line COLON).

(** The value of a line as the specification words it: the substring
    after the first [':'], trimmed. *)
Definition remainderOf (line : string) : option string :=
  option_map TrimSpace (afterFirst line COLON).

(** The value of a line as the program takes it: of the substring after
    the first [':'], the part before the next [':'], trimmed. *)
Definition valueOf (line : string) : option string :=
  option_map (fun rest => TrimSpace (beforeFirst rest COLON))
             (afterFirst line COLON).

(** The values of a sequence of lines, when every one of them has one. *)
Fixpoint valuesOf (lines : list string) : option (list string) :=
  match lines with
  | [] => Some []
  | line :: rest =>
      match valueOf line, valuesOf rest with
      | Some v, Some vs => Some (v :: vs)
      | _, _ => None
      end
  end.

(** The lines whose raw text starts with [key]. *)
Definition linesWith (rows : list string) (key : string) : list string :=
  filter (fun line => HasPrefix line key) rows.

(** The non-empty keys of the lines, in document order. *)
Definition keysOf (rows : list string) : list string :=
  filter (fun key => negb (String.eqb key EmptyString)) (map keyOf rows).

(** The suffix of a host that starts at its first ['.']. *)
Fixpoint firstDotSuffix (host : string) : option string :=
  match host with
  | EmptyString => None
  | String c host' =>
      if Ascii.eqb c "."%char then Some host else firstDotSuffix host'
  end.

(** The one-level wildcard rule for one declared pattern. *)
Definition patternMatches (mx host : string) : bool :=
  if HasPrefix mx "." then
    match firstDotSuffix host with
    | Some suffix => String.eqb suffix mx
    | None => false
    end
  else String.eqb mx host.

(** Whether some declared pattern is a wildcard, and the patterns that
    stand before the first wildcard. *)
Definition hasWildcard (declaredMXs : list string) : bool :=
  existsb (fun mx => HasPrefix mx ".") declaredMXs.

Fixpoint beforeWildcard (declaredMXs : list string) : list string :=
  match declaredMXs with
  | [] => []
  | mx :: rest =>
      if HasPrefix mx "." then [] else mx :: beforeWildcard rest
  end.

Definition versionRelated (f : Finding) : bool :=
  match f with
  | MissingVersion | VersionNotSTSv1 => true
  | _ => false
  end.

Definition isUndefinedMX (f : Finding) : bool :=
  match f with
  | UndefinedMX _ => true
  | _ => false
  end.

(** A resolved record that line 82 lets through and no declared pattern
    matches. *)
Definition unmatched (mxs : list string) (record : string) : bool :=
  (0 <? String.length record)%nat
  && negb (existsb (fun mx => patternMatches mx record) mxs).

(** The findings of a run in the order of the specification, from the
    values the four lookups returned. *)
Definition findingsInOrder (policyRows mxRecords : list string)
  (version mode : string) (keys mxs : list string) : list Finding :=
  (if hasKey policyRows "version" then [] else [MissingVersion])
  ++ (if String.eqb version "STSv1" then [] else [VersionNotSTSv1])
  ++ (if invalidMode mode then [InvalidMode mode] else [])
  ++ (if hasKey policyRows "max_age" then [] else [MissingMaxAge])
  ++ map UnknownKey (filter isUnknownKey keys)
  ++ map UndefinedMX (filter (unmatched mxs) mxRecords).

(** The cross-check of a record returns: line 82 skips it or
    [mxHasMatch] does not panic on it. *)
Definition crossCheckReturns (mxs : list string) (record : string) : bool :=
  negb (0 <? String.length record)%nat
  || match mxHasMatch mxs record with Some _ => true | None => false end.

(** Every finding that a run printed satisfies [P]. *)
Definition allPrinted {A} (P : Finding -> bool) (m : Run.t A) : Prop :=
  forallb P (Run.printed m) = true.

(** A line has a [':'] separator. *)
Definition hasColon (line : string) : bool :=
  match afterFirst line COLON with
  | Some _ => true
  | None => false
  end.

(** A resolved record is empty or has a dot. *)
Definition emptyOrDotted (record : string) : bool :=
  negb (0 <? String.length record)%nat
  || match firstDotSuffix record with Some _ => true | None => false end.

(** ** Example inputs *)

(** A text from its lines. *)
Fixpoint joinLines (lines : list string) : string :=
  match lines with
  | [] => EmptyString
  | [line] => line
  | line :: rest => line ++ String NL (joinLines rest)
  end.

(** The policy of the end-to-end scenario, declaring one mail exchange. *)
Definition policyComplete : string :=
  joinLines ["version: STSv1"; "mode: enforce"; "max_age: 86400";
             "mx: mx1.example.com"].

(** The same policy with the [':'] of its first line left out. *)
Definition policyVersionWithoutColon : string :=
  joinLines ["version STSv1"; "mode: enforce"; "max_age: 86400";
             "mx: mx1.example.com"].

(** The same policy with the [':'] of its last line left out. *)
Definition policyMxWithoutColon : string :=
  joinLines ["version: STSv1"; "mode: enforce"; "max_age: 86400";
             "mx mx1.example.com"].

(** The same policy without its version line. *)
Definition policyWithoutVersion : string :=
  joinLines ["mode: enforce"; "max_age: 86400"; "mx: mx1.example.com"].

(** A policy without version and mode lines and with an unknown key. *)
Definition policySparse : string :=
  joinLines ["max_age: 86400"; "foo: bar"; "mx: .example.com"].

(** A policy whose only line has a key that extends [version] and a
    value that starts with [version]. *)
Definition policyVersionLookalike : string :=
  joinLines ["version-id: version 2"].

(** The resolved records of a domain with two mail exchanges, as
    [mxRecords] builds them. *)
Definition twoExchanges : list string :=
  make 1 ++ ["mx1.example.com"; "mx2.example.com"].

(** The resolved records of a domain with one mail exchange. *)
Definition oneExchange : list string := make 1 ++ ["mx1.example.com"].

(** A line whose value has a [':'] of its own. *)
Definition lineWithPort : string := "mx: backup.example.com:25".

(** The resolved records of a domain whose second mail exchange lies
    outside [example.com]. *)
Definition mixedExchanges : list string :=
  make 1 ++ ["mail.example.com"; "mx.example.org"].

(** ** The rest of [QuerySts.go] *)

(** [strings.HasSuffix(s, suffix)]: [s] is at least as long as [suffix]
    and its last bytes are those of [suffix]. *)
Definition HasSuffix (s suffix : string) : bool :=
  (String.length suffix <=? String.length s)%nat
  && String.eqb
       (substring (String.length s - String.length suffix)
                  (String.length suffix) s)
       suffix.

(** The slice expression [s[:j]]; it panics unless [0 <= j <= len(s)]. *)
Definition sliceTo (s : string) (j : Z) : option string :=
  if ((0 <=? j)%Z && (j <=? Z.of_nat (String.length s))%Z)%bool
  then Some (substring 0 (Z.to_nat j) s)
  else None.

(** [trimSuffix], lines 236-241. *)
Definition trimSuffix (s suffix : string) : option string :=
  if HasSuffix s suffix
  then sliceTo s (Z.of_nat (String.length s)
                  - Z.of_nat (String.length suffix))%Z
  else Some s.

(** [normalizeDomain], lines 228-234. *)
Definition normalizeDomain (domain : string) : option string :=
  if HasSuffix domain "." then trimSuffix domain "." else Some domain.

(** The loop of [stsDNSCheck], lines 174-178, and the [return ""] of
    line 180 that follows it. *)
Fixpoint stsDNSCheck_loop (txt : list string) : string :=
  match txt with
  | [] => EmptyString
  | element :: rest =>
      if HasPrefix element "v=STSv1; " then element
      else stsDNSCheck_loop rest
  end.

(** A record of [net.LookupMX]. *)
Record MX : Type := { Host : string; Pref : Z }.

(** The loop of [mxRecords], lines 159-163, on the slice [records] built
    so far.  [fmt.Fprintf(&buf, "%s", mx.Host)] followed by
    [buf.String()] gives [mx.Host]. *)
Fixpoint mxRecords_append (mxs : list MX) (records : list string)
  : option (list string) :=
  match mxs with
  | [] => Some records
  | mx :: rest =>
      match normalizeDomain (Host mx) with
      | None => None
      | Some host => mxRecords_append rest (records ++ [host])
      end
  end.

(** *** The network

    What the resolver, the SMTP servers and the HTTPS server answer is
    an input of the program.  An error is given by its text. *)

(** The client that [smtp.Dial] returns: [StartTLS] answers for the
    [ServerName] of the configuration, with an error or with none. *)
Record Client : Type := { StartTLS : string -> option string }.

(** The response that [http.Get] returns: [ioutil.ReadAll] of its body
    gives the data or an error. *)
Record Response : Type := { ReadAll : string + string }.

Record Network : Type := {
  LookupMX : string -> list MX + string;
  LookupTXT : string -> list string + string;
  Dial : string -> Client + string;
  Get : string -> Response + string
}.

(** What a run does that can be seen from outside: the requests it
    sends and the messages it writes. *)
Inductive Event : Type :=
| UsagePrinted
| AskedMX (domain : string)
| AskedTXT (domain : string)
| Dialed (smtpserver : string)
| StartedTLS (serverName : string)
| AskedHTTPS (url : string)
| LoggedFatal (err : string)
| LoggedNoConnection (host port err : string)
| LoggedTLSError (host port err : string)
| LoggedCertificateGood (host : string)
| PrintedTXTError (err : string)
| PrintedSTSFound (stsRecord : string)
| PrintedSTSNotFound
| PrintedReadFailed
| PrintedPolicy (responseString : string)
| PrintedFinding (f : Finding).

(** How a run ends before the end of [main]: [os.Exit(1)], also through
    [log.Fatal], or a panic. *)
Inductive Stop : Type :=
| Exit1
| Panic.

(** A run of the whole program: its events, and its value or the way it
    stopped. *)
Module Proc.

Definition t (A : Type) : Type := (list Event * (A + Stop))%type.

Definition ret {A} (a : A) : t A := ([], inl a).

Definition bind {A B} (m : t A) (k : A -> t B) : t B :=
  match m with
  | (out, inr stop) => (out, inr stop)
  | (out, inl a) => let (out', r) := k a in (out ++ out', r)
  end.

Definition emit (e : Event) : t unit := ([e], inl tt).

Definition stop {A} (s : Stop) : t A := ([], inr s).

(** [log.Fatal(err)]. *)
Definition fatal {A} (err : string) : t A := ([LoggedFatal err], inr Exit1).

(** A value that a helper returns, or its panic. *)
Definition call {A} (r : option A) : t A :=
  match r with
  | Some a => ([], inl a)
  | None => ([], inr Panic)
  end.

(** The validation block inside the whole run. *)
Definition block {A} (r : Run.t A) : t A :=
  (map PrintedFinding (fst r),
   match snd r with
   | Some a => inl a
   | None => inr Panic
   end).

Definition events {A} (m : t A) : list Event := fst m.

(** The exit status of the process: 0 at the end of [main], 1 after
    [os.Exit(1)], 2 after a panic. *)
Definition status (m : t unit) : Z :=
  match snd m with
  | inl _ => 0%Z
  | inr Exit1 => 1%Z
  | inr Panic => 2%Z
  end.

End Proc.

Notation "x <~ m ;; k" := (Proc.bind m (fun x => k))
  (at level 61, m at next level, right associativity).
Notation "m ;;> k" := (Proc.bind m (fun _ => k))
  (at level 61, right associativity).

(** [mxRecords], lines 152-165. *)
Definition mxRecords (net : Network) (domain : string)
  : Proc.t (list string) :=
  Proc.emit (AskedMX domain) ;;>
  match LookupMX net domain with
  | inr err => Proc.fatal err
  | inl mxs => Proc.call (mxRecords_append mxs (make 1))
  end.

(** [stsDNSCheck], lines 167-181. *)
Definition stsDNSCheck (net : Network) (domain : string) : Proc.t string :=
  Proc.emit (AskedTXT domain) ;;>
  match LookupTXT net domain with
  | inr err => Proc.emit (PrintedTXTError err) ;;> Proc.ret EmptyString
  | inl txt => Proc.ret (stsDNSCheck_loop txt)
  end.

(** [tlsTest], lines 183-206. *)
Definition tlsTest (net : Network) (host port : string) : Proc.t unit :=
  let smtpserver := (host ++ ":" ++ port)%string in
  Proc.emit (Dialed smtpserver) ;;>
  match Dial net smtpserver with
  | inr err => Proc.emit (LoggedNoConnection host port err)
  | inl c =>
      Proc.emit (StartedTLS host) ;;>
      match StartTLS c host with
      | Some err => Proc.emit (LoggedTLSError host port err)
      | None => Proc.emit (LoggedCertificateGood host)
      end
  end.

(** [queryHTTPSRecord], lines 208-226. *)
Definition queryHTTPSRecord (net : Network) (url : string)
  : Proc.t string :=
  Proc.emit (AskedHTTPS url) ;;>
  match Get net url with
  | inr err => Proc.fatal err
  | inl response =>
      match ReadAll response with
      | inr err => Proc.emit PrintedReadFailed ;;> Proc.fatal err
      | inl responseString =>
          Proc.emit (PrintedPolicy responseString) ;;>
          Proc.ret responseString
      end
  end.

(** The loop of lines 37-41. *)
Fixpoint tlsTest_loop (net : Network) (mxRecords : list string)
  : Proc.t unit :=
  match mxRecords with
  | [] => Proc.ret tt
  | record :: rest =>
      (if (0 <? String.length record)%nat then tlsTest net record "25"
       else Proc.ret tt) ;;>
      tlsTest_loop net rest
  end.

(** [main], lines 26-89, on the value of the flag [-domain]. *)
Definition main (net : Network) (domain : string) : Proc.t unit :=
  (if String.eqb domain "" then
     Proc.emit UsagePrinted ;;> Proc.stop Exit1
   else Proc.ret tt) ;;>
  mxRecords <~ mxRecords net domain ;;
  tlsTest_loop net mxRecords ;;>
  stsRecord <~ stsDNSCheck net ("_mta-sts." ++ domain)%string ;;
  (if (0 <? String.length stsRecord)%nat
   then Proc.emit (PrintedSTSFound stsRecord)
   else Proc.emit PrintedSTSNotFound) ;;>
  policyResource <~
    queryHTTPSRecord net
      ("https://mta-sts." ++ domain ++ "/.well-known/mta-sts.txt")%string ;;
  Proc.block (validate policyResource mxRecords).

(** *** Notions for the rest of the program *)

(** A domain name without one trailing dot. *)
Definition withoutRootDot (domain : string) : string :=
  if HasSuffix domain "."
  then substring 0 (String.length domain - 1) domain
  else domain.

(** The records that [mxRecords] builds from the answer of the
    resolver. *)
Definition recordsOf (mxs : list MX) : list string :=
  make 1 ++ map (fun mx => withoutRootDot (Host mx)) mxs.

(** The hosts among the records: line 38 and line 82 skip the empty
    ones. *)
Definition hostsOf (records : list string) : list string :=
  filter (fun record => (0 <? String.length record)%nat) records.


Fixpoint findingsOf (events : list Event) : list Finding :=
  match events with
  | [] => []
  | PrintedFinding f :: rest => f :: findingsOf rest
  | _ :: rest => findingsOf rest
  end.

(** The address of the policy and the name of the TXT record. *)
Definition policyURL (domain : string) : string :=
  ("https://mta-sts." ++ domain ++ "/.well-known/mta-sts.txt")%string.

Definition txtName (domain : string) : string :=
  ("_mta-sts." ++ domain)%string.


(** The TXT marker that [stsDNSCheck] looks for. *)
Definition stsMarker : string := "v=STSv1; ".

(** Every host is declared by a literal pattern and has a dot. *)
Definition declaredAndDotted (declaredMXs hosts : list string) : bool :=
  forallb (fun host =>
             existsb (String.eqb host) declaredMXs
             && match firstDotSuffix host with
                | Some _ => true
                | None => false
                end)
          hosts.

(** The end-to-end scenario: one mail exchange, resolved with the root
    dot and declared without it; no SMTP server answers. *)
Definition policyScenario : string :=
  joinLines ["version: STSv1"; "mode: enforce"; "max_age: 86400";
             "mx: mx.example.com"].

Definition scenarioNetwork : Network :=
  {| LookupMX := fun _ => inl [ {| Host := "mx.example.com."; Pref := 10 |} ];
     LookupTXT := fun _ => inl ["v=STSv1; id=1"];
     Dial := fun _ => inr "connection refused";
     Get := fun _ => inl {| ReadAll := inl policyScenario |} |}.

Definition isUnknownKeyFinding (f : Finding) : bool :=
  match f with
  | UnknownKey _ => true
  | _ => false
  end.

(** A line that the block does not see: it starts with none of the four
    keys and its own key is empty. *)
Definition ignorable (line : string) : bool :=
  negb (HasPrefix line "version") && negb (HasPrefix line "mode")
  && negb (HasPrefix line "max_age") && negb (HasPrefix line "mx")
  && String.eqb (keyOf line) EmptyString.

(** A policy whose values are followed by a [':'] and more text. *)
Definition policyWithTrailers : string :=
  joinLines ["version: STSv1:junk"; "mode: enforce:junk"; "max_age: 86400";
             "mx: mx1.example.com:25"].

(** A policy whose mode line lacks the [':'], followed by a line with an
    unknown key. *)
Definition policyModeWithoutColon : string :=
  joinLines ["mode enforce"; "foo: bar"].

(** A complete policy that declares one wildcard pattern, and the
    records of a domain whose first mail exchange has no dot. *)
Definition policyWildcard : string :=
  joinLines ["version: STSv1"; "mode: enforce"; "max_age: 86400";
             "mx: .example.com"].

Definition dotlessExchanges : list string :=
  make 1 ++ ["localhost"; "other.org"].

(** A policy without a mode line whose version line lacks the [':']. *)
Definition policyNoModeVersionWithoutColon : string :=
  joinLines ["version STSv1"; "max_age: 86400"].

(** ** The model of Go's [strings] functions *)

Lemma Split_fields (s : string) (sep : ascii) :
  Split s sep =
  beforeFirst s sep ::
    match afterFirst s sep with
    | Some rest => Split rest sep
    | None => []
    end.
Proof.
  induction s as [|c s IH]; simpl.
  - reflexivity.
  - destruct (Ascii.eqb c sep); [reflexivity|].
    rewrite IH. reflexivity.
Qed.

Lemma Split_at_0 (s : string) (sep : ascii) :
  at_index (Split s sep) 0 = Some (beforeFirst s sep).
Proof. rewrite Split_fields. reflexivity. Qed.

Lemma Split_at_1 (s : string) (sep : ascii) :
  at_index (Split s sep) 1 =
  option_map (fun rest => beforeFirst rest sep) (afterFirst s sep).
Proof.
  rewrite Split_fields. destruct (afterFirst s sep) as [rest|]; simpl.
  - rewrite Split_fields. reflexivity.
  - reflexivity.
Qed.

Lemma HasPrefix_dot (c : ascii) (s : string) :
  HasPrefix (String c s) "." = Ascii.eqb c "."%char.
Proof.
  cbn [HasPrefix]. apply andb_true_r.
Qed.

Lemma Index_bounds (s substr : string) :
  (-1 <= Index s substr <= Z.of_nat (String.length s))%Z.
Proof.
  induction s as [|c s IH].
  - simpl. destruct (HasPrefix "" substr); lia.
  - cbn [Index]. destruct (HasPrefix (String c s) substr).
    + cbn [String.length]. lia.
    + destruct (Z.ltb_spec (Index s substr) 0); cbn [String.length]; lia.
Qed.

Lemma substring_all (s : string) : substring 0 (String.length s) s = s.
Proof.
  induction s as [|c s IH]; simpl; [reflexivity|]. rewrite IH. reflexivity.
Qed.

Lemma sliceFrom_0 (s : string) : sliceFrom s 0 = Some s.
Proof.
  unfold sliceFrom. simpl. rewrite Nat.sub_0_r, substring_all.
  destruct (Z.leb_spec 0 (Z.of_nat (String.length s))); [reflexivity|lia].
Qed.

Lemma sliceFrom_succ (c : ascii) (s : string) (i : Z) :
  (0 <= i)%Z -> sliceFrom (String c s) (i + 1) = sliceFrom s i.
Proof.
  intros Hi. unfold sliceFrom. cbn [String.length].
  replace (Z.to_nat (i + 1)) with (S (Z.to_nat i)) by lia.
  cbn [substring Nat.sub].
  destruct (Z.leb_spec 0 i); [|lia].
  destruct (Z.leb_spec 0 (i + 1)); [|lia].
  destruct (Z.leb_spec i (Z.of_nat (String.length s))),
           (Z.leb_spec (i + 1) (Z.of_nat (S (String.length s))));
    try lia; reflexivity.
Qed.

(** The slice [mxHost[i:]] at [i := strings.Index(mxHost, ".")] is the
    suffix from the first dot, and panics when there is no dot. *)
Lemma sliceFrom_Index_dot (host : string) :
  sliceFrom host (Index host ".") = firstDotSuffix host.
Proof.
  induction host as [|c host IH].
  - reflexivity.
  - cbn [Index firstDotSuffix].
    rewrite HasPrefix_dot. destruct (Ascii.eqb c "."%char).
    + apply sliceFrom_0.
    + pose proof (Index_bounds host ".") as B.
      destruct (Z.ltb_spec (Index host ".") 0) as [L|L].
      * rewrite <- IH. replace (Index host ".") with (-1)%Z by lia.
        reflexivity.
      * rewrite sliceFrom_succ by lia. exact IH.
Qed.

Lemma Index_dot_firstDotSuffix (host : string) :
  (Index host "." < 0)%Z <-> firstDotSuffix host = None.
Proof.
  induction host as [|c host IH].
  - simpl. split; [reflexivity|lia].
  - cbn [Index firstDotSuffix].
    rewrite HasPrefix_dot. destruct (Ascii.eqb c "."%char).
    + split; [lia|discriminate].
    + pose proof (Index_bounds host ".") as B.
      destruct (Z.ltb_spec (Index host ".") 0) as [L|L].
      * split; [intros _; apply IH; lia | lia].
      * split; [lia | intros E; apply IH in E; lia].
Qed.

(** [TrimSpace] on ASCII white space, on a no-break space (U+00A0) and
    an ideographic space (U+3000), and on bytes that are not the UTF-8
    form of a space. *)
Lemma TrimSpace_examples :
  TrimSpace "  STSv1 " = "STSv1"
  /\ TrimSpace (String (ascii_of_nat 9) "a b" ++ String (ascii_of_nat 13) "")
     = "a b"
  /\ TrimSpace (String (ascii_of_nat 194) (String (ascii_of_nat 160) "mx")
                ++ String (ascii_of_nat 227)
                     (String (ascii_of_nat 128)
                        (String (ascii_of_nat 128) "")))
     = "mx"
  /\ TrimSpace (String (ascii_of_nat 160) "mx")
     = String (ascii_of_nat 160) "mx"
  /\ TrimSpace "   " = "".
Proof. repeat split. Qed.

(** ** The helpers *)

Lemma hasKey_existsb (rows : list string) (key : string) :
  hasKey rows key = existsb (fun line => HasPrefix line key) rows.
Proof.
  induction rows as [|line rows IH]; simpl; [reflexivity|].
  destruct (HasPrefix line key); [reflexivity|exact IH].
Qed.

Lemma hasKey_false_find (rows : list string) (key : string) :
  hasKey rows key = false ->
  find (fun line => HasPrefix line key) rows = None.
Proof.
  induction rows as [|line rows IH]; simpl; [reflexivity|].
  destruct (HasPrefix line key); [discriminate|exact IH].
Qed.

(** [valueForKey] reads the first line that starts with the key. *)
Lemma valueForKey_find (rows : list string) (key : string) :
  valueForKey rows key =
  match find (fun line => HasPrefix line key) rows with
  | Some line => valueOf line
  | None => Some EmptyString
  end.
Proof.
  induction rows as [|line rows IH]; cbn [valueForKey find]; [reflexivity|].
  destruct (HasPrefix line key); [|exact IH].
  rewrite Split_at_1. unfold valueOf.
  destruct (afterFirst line COLON); reflexivity.
Qed.

Lemma valuesForKey_loop_spec (rows : list string) (key : string) :
  forall results,
    valuesForKey_loop rows key results =
    option_map (app results) (valuesOf (linesWith rows key)).
Proof.
  induction rows as [|line rows IH]; intros results;
    unfold linesWith; cbn [valuesForKey_loop filter].
  - simpl. rewrite app_nil_r. reflexivity.
  - fold (linesWith rows key).
    destruct (HasPrefix line key); [|apply IH].
    rewrite Split_at_1. cbn [valuesOf]. unfold valueOf.
    destruct (afterFirst line COLON) as [rest|]; simpl; [|reflexivity].
    rewrite IH.
    destruct (valuesOf (linesWith rows key)) as [vs|]; simpl; [|reflexivity].
    rewrite <- app_assoc. reflexivity.
Qed.

Lemma allKeys_loop_spec (rows : list string) :
  forall keys, allKeys_loop rows keys = Some (keys ++ keysOf rows).
Proof.
  induction rows as [|line rows IH]; intros keys; cbn [allKeys_loop].
  - unfold keysOf. simpl. rewrite app_nil_r. reflexivity.
  - rewrite Split_at_0. unfold keysOf. cbn [map filter].
    fold (keyOf line). fold (keysOf rows).
    destruct (negb (String.eqb (keyOf line) EmptyString)).
    + rewrite IH, <- app_assoc. reflexivity.
    + apply IH.
Qed.

(** [allKeys] never panics: [fields[0]] always exists. *)
Lemma allKeys_returns (rows : list string) :
  allKeys rows = Some (make 1 ++ keysOf rows).
Proof. apply allKeys_loop_spec. Qed.

Lemma valuesForKey_spec (rows : list string) (key : string) :
  valuesForKey rows key =
  option_map (app (make 1)) (valuesOf (linesWith rows key)).
Proof. apply valuesForKey_loop_spec. Qed.

(** *** [mxHasMatch] *)

(** When [mxHasMatch] returns, it returns whether some declared pattern
    matches the host by the one-level rule. *)
Lemma mxHasMatch_sound (declaredMXs : list string) (mxHost : string) :
  forall b,
    mxHasMatch declaredMXs mxHost = Some b ->
    b = existsb (fun mx => patternMatches mx mxHost) declaredMXs.
Proof.
  induction declaredMXs as [|mx rest IH]; intros b;
    cbn [mxHasMatch existsb].
  - congruence.
  - unfold patternMatches at 1. rewrite sliceFrom_Index_dot.
    destruct (HasPrefix mx ".").
    + destruct (firstDotSuffix mxHost) as [suffix|]; [|discriminate].
      destruct (String.eqb suffix mx); cbn [orb]; [congruence|apply IH].
    + destruct (String.eqb mx mxHost); cbn [orb]; [congruence|apply IH].
Qed.

(** On a host that has a dot it always returns. *)
Lemma mxHasMatch_dotted (declaredMXs : list string) (mxHost suffix : string) :
  firstDotSuffix mxHost = Some suffix ->
  mxHasMatch declaredMXs mxHost =
  Some (existsb (fun mx => patternMatches mx mxHost) declaredMXs).
Proof.
  intros D.
  induction declaredMXs as [|mx rest IH]; cbn [mxHasMatch existsb];
    [reflexivity|].
  unfold patternMatches at 1. rewrite sliceFrom_Index_dot, D.
  destruct (HasPrefix mx ".").
  - destruct (String.eqb suffix mx); cbn [orb]; [reflexivity|exact IH].
  - destruct (String.eqb mx mxHost); cbn [orb]; [reflexivity|exact IH].
Qed.

(** Without a wildcard pattern it always returns. *)
Lemma mxHasMatch_literal (declaredMXs : list string) (mxHost : string) :
  hasWildcard declaredMXs = false ->
  mxHasMatch declaredMXs mxHost =
  Some (existsb (String.eqb mxHost) declaredMXs).
Proof.
  unfold hasWildcard.
  induction declaredMXs as [|mx rest IH]; cbn [mxHasMatch existsb];
    [reflexivity|].
  destruct (HasPrefix mx "."); cbn [orb]; [discriminate|]. intros W.
  rewrite (String.eqb_sym mxHost mx).
  destruct (String.eqb mx mxHost); cbn [orb]; [reflexivity|apply IH, W].
Qed.

(** On a host without a dot it panics exactly when the loop comes to a
    wildcard pattern. *)
Lemma mxHasMatch_dotless (declaredMXs : list string) (mxHost : string) :
  firstDotSuffix mxHost = None ->
  mxHasMatch declaredMXs mxHost =
  if hasWildcard declaredMXs
     && negb (existsb (String.eqb mxHost) (beforeWildcard declaredMXs))
  then None
  else Some (existsb (String.eqb mxHost) (beforeWildcard declaredMXs)).
Proof.
  intros D. unfold hasWildcard.
  induction declaredMXs as [|mx rest IH];
    cbn [mxHasMatch existsb beforeWildcard]; [reflexivity|].
  rewrite sliceFrom_Index_dot, D.
  destruct (HasPrefix mx "."); cbn [orb existsb andb negb]; [reflexivity|].
  rewrite (String.eqb_sym mxHost mx).
  destruct (String.eqb mx mxHost); cbn [orb negb].
  - rewrite andb_false_r. reflexivity.
  - exact IH.
Qed.

(** ** Runs *)

Lemma bind_ret {A B} (a : A) (k : A -> Run.t B) :
  Run.bind (Run.ret a) k = k a.
Proof. unfold Run.bind, Run.ret. destruct (k a). reflexivity. Qed.

Lemma bind_call_Some {A B} (a : A) (k : A -> Run.t B) :
  Run.bind (Run.call (Some a)) k = k a.
Proof. unfold Run.bind, Run.call. destruct (k a). reflexivity. Qed.

Lemma bind_call_None {A B} (k : A -> Run.t B) :
  Run.bind (Run.call None) k = ([], None).
Proof. reflexivity. Qed.

Lemma bind_when (b : bool) (f : Finding) {B} (k : unit -> Run.t B) :
  Run.bind (Run.when b (Run.print f)) k =
  ((if b then [f] else []) ++ fst (k tt), snd (k tt)).
Proof.
  unfold Run.bind, Run.when, Run.print, Run.ret.
  destruct b, (k tt); reflexivity.
Qed.

Lemma bind_returned_eq {A B} (m : Run.t A) (k : A -> Run.t B) out a :
  m = (out, Some a) ->
  Run.bind m k = (out ++ fst (k a), snd (k a)).
Proof. intros ->. unfold Run.bind. destruct (k a). reflexivity. Qed.

Lemma allPrinted_bind {A B} P (m : Run.t A) (k : A -> Run.t B) :
  allPrinted P m -> (forall a, allPrinted P (k a)) ->
  allPrinted P (Run.bind m k).
Proof.
  unfold allPrinted, Run.printed, Run.bind.
  destruct m as [out [a|]]; simpl; intros Hm Hk; [|exact Hm].
  specialize (Hk a). destruct (k a) as [out' r]. simpl in *.
  rewrite forallb_app, Hm, Hk. reflexivity.
Qed.

Lemma allPrinted_call {A} P (r : option A) : allPrinted P (Run.call r).
Proof. reflexivity. Qed.

Lemma allPrinted_ret {A} P (a : A) : allPrinted P (Run.ret a).
Proof. reflexivity. Qed.

Lemma allPrinted_when P (b : bool) (f : Finding) :
  P f = true -> allPrinted P (Run.when b (Run.print f)).
Proof.
  intros Hf. destruct b; [|reflexivity].
  unfold allPrinted. simpl. rewrite Hf. reflexivity.
Qed.

(** ** The two loops of the validation block *)

Lemma unknownKeys_loop_spec (keys : list string) :
  unknownKeys_loop keys =
  (map UnknownKey (filter isUnknownKey keys), Some tt).
Proof.
  induction keys as [|key keys IH]; cbn [unknownKeys_loop filter].
  - reflexivity.
  - rewrite bind_when, IH. destruct (isUnknownKey key); reflexivity.
Qed.

Lemma unmatched_true_iff (mxs : list string) (record : string) :
  crossCheckReturns mxs record = true ->
  unmatched mxs record =
  (0 <? String.length record)%nat
  && match mxHasMatch mxs record with
     | Some matched => negb matched
     | None => false
     end.
Proof.
  unfold crossCheckReturns, unmatched.
  destruct (0 <? String.length record)%nat; [|reflexivity].
  destruct (mxHasMatch mxs record) as [matched|] eqn:M; [|discriminate].
  intros _. rewrite (mxHasMatch_sound _ _ _ M). reflexivity.
Qed.

Lemma mxRecords_loop_spec (mxs mxRecords : list string) :
  forallb (crossCheckReturns mxs) mxRecords = true ->
  mxRecords_loop mxs mxRecords =
  (map UndefinedMX (filter (unmatched mxs) mxRecords), Some tt).
Proof.
  induction mxRecords as [|record rest IH];
    cbn [mxRecords_loop filter forallb]; [reflexivity|].
  intros H. apply andb_prop in H as [Hr Hrest].
  rewrite (IH Hrest), (unmatched_true_iff _ _ Hr).
  unfold crossCheckReturns in Hr.
  destruct (0 <? String.length record)%nat; cbn [andb].
  - destruct (mxHasMatch mxs record) as [matched|]; [|discriminate].
    rewrite bind_call_Some.
    destruct matched; reflexivity.
  - rewrite bind_ret. reflexivity.
Qed.

Lemma mxRecords_loop_prints_undefined (mxs mxRecords : list string) :
  allPrinted isUndefinedMX (mxRecords_loop mxs mxRecords).
Proof.
  induction mxRecords as [|record rest IH]; cbn [mxRecords_loop].
  - reflexivity.
  - apply allPrinted_bind; [|intros _; exact IH].
    destruct (0 <? String.length record)%nat; [|reflexivity].
    apply allPrinted_bind; [reflexivity|].
    intros matched. apply allPrinted_when. reflexivity.
Qed.

(** ** The validation block *)

(** When the four lookups return and the cross-check does not panic, the
    block returns and has printed the findings group by group. *)
Lemma validateRows_returns (policyRows mxRecords : list string)
  (version mode : string) (keys mxs : list string) :
  valueForKey policyRows "version" = Some version ->
  valueForKey policyRows "mode" = Some mode ->
  allKeys policyRows = Some keys ->
  valuesForKey policyRows "mx" = Some mxs ->
  forallb (crossCheckReturns mxs) mxRecords = true ->
  validateRows policyRows mxRecords =
  (findingsInOrder policyRows mxRecords version mode keys mxs, Some tt).
Proof.
  intros Hv Hm Hk Hx Hc. unfold validateRows, findingsInOrder.
  rewrite Hv, Hm, Hk, Hx.
  rewrite bind_when, bind_call_Some, bind_when, bind_call_Some,
    bind_when, bind_when, bind_call_Some.
  rewrite (bind_returned_eq _ _ _ _ (unknownKeys_loop_spec keys)).
  rewrite bind_call_Some, (mxRecords_loop_spec _ _ Hc).
  cbn [fst snd].
  destruct (hasKey policyRows "version"), (String.eqb version "STSv1"),
    (invalidMode mode), (hasKey policyRows "max_age"); reflexivity.
Qed.

(** On a policy whose lines all have a separator and on records that are
    empty or dotted the block returns. *)
Lemma valueForKey_wellformed (rows : list string) (key : string) :
  forallb hasColon rows = true -> exists v, valueForKey rows key = Some v.
Proof.
  intros W. rewrite valueForKey_find.
  destruct (find (fun line => HasPrefix line key) rows) as [line|] eqn:F;
    [|eauto].
  apply find_some in F as [I _].
  rewrite forallb_forall in W. specialize (W _ I).
  unfold hasColon in W. unfold valueOf.
  destruct (afterFirst line COLON); [simpl; eauto|discriminate].
Qed.

Lemma valuesOf_wellformed (lines : list string) :
  forallb hasColon lines = true -> exists vs, valuesOf lines = Some vs.
Proof.
  induction lines as [|line rest IH]; cbn [forallb valuesOf]; [eauto|].
  intros W. apply andb_prop in W as [Wl Wr].
  destruct (IH Wr) as [vs ->]. unfold hasColon in Wl. unfold valueOf.
  destruct (afterFirst line COLON); [simpl; eauto|discriminate].
Qed.

Lemma valuesForKey_wellformed (rows : list string) (key : string) :
  forallb hasColon rows = true -> exists vs, valuesForKey rows key = Some vs.
Proof.
  intros W. rewrite valuesForKey_spec.
  destruct (valuesOf_wellformed (linesWith rows key)) as [vs ->];
    [|simpl; eauto].
  rewrite forallb_forall in *. intros line I.
  apply filter_In in I as [I _]. auto.
Qed.

Lemma crossCheckReturns_dotted (mxs mxRecords : list string) :
  forallb emptyOrDotted mxRecords = true ->
  forallb (crossCheckReturns mxs) mxRecords = true.
Proof.
  rewrite !forallb_forall. intros W record I. specialize (W _ I).
  unfold emptyOrDotted in W. unfold crossCheckReturns.
  destruct (negb (0 <? String.length record)%nat); [reflexivity|].
  simpl in *. destruct (firstDotSuffix record) as [suffix|] eqn:D;
    [|discriminate].
  rewrite (mxHasMatch_dotted _ _ _ D). reflexivity.
Qed.

Lemma validateRows_wellformed (policyRows mxRecords : list string) :
  forallb hasColon policyRows = true ->
  forallb emptyOrDotted mxRecords = true ->
  exists version mode keys mxs,
    validateRows policyRows mxRecords =
    (findingsInOrder policyRows mxRecords version mode keys mxs, Some tt).
Proof.
  intros W D.
  destruct (valueForKey_wellformed policyRows "version" W) as [version Hv].
  destruct (valueForKey_wellformed policyRows "mode" W) as [mode Hm].
  destruct (valuesForKey_wellformed policyRows "mx" W) as [mxs Hx].
  exists version, mode, (make 1 ++ keysOf policyRows), mxs.
  apply validateRows_returns; auto using allKeys_returns,
    crossCheckReturns_dotted.
Qed.

Lemma bind_returned_inv {A B} (m : Run.t A) (k : A -> Run.t B) :
  Run.returned (Run.bind m k) = true ->
  exists out a, m = (out, Some a) /\ Run.returned (k a) = true.
Proof.
  unfold Run.returned, Run.bind. destruct m as [out [a|]]; [|discriminate].
  intros R. exists out, a. split; [reflexivity|].
  destruct (k a) as [out' r]. exact R.
Qed.

Lemma mxRecords_loop_returned (mxs mxRecords : list string) :
  Run.returned (mxRecords_loop mxs mxRecords) = true ->
  forallb (crossCheckReturns mxs) mxRecords = true.
Proof.
  induction mxRecords as [|record rest IH]; cbn [mxRecords_loop forallb];
    [reflexivity|].
  intros R. apply bind_returned_inv in R as [out [[] [E R]]].
  rewrite (IH R), andb_true_r. unfold crossCheckReturns.
  destruct (0 <? String.length record)%nat; [|reflexivity].
  destruct (mxHasMatch mxs record); [reflexivity|discriminate].
Qed.

(** The block returns only when the lookups have returned: the runs of
    [validateRows_returns] are all the runs that do not panic. *)
Lemma validateRows_returned (policyRows mxRecords : list string) :
  Run.returned (validateRows policyRows mxRecords) = true ->
  exists version mode mxs,
    valueForKey policyRows "version" = Some version
    /\ valueForKey policyRows "mode" = Some mode
    /\ valuesForKey policyRows "mx" = Some mxs
    /\ forallb (crossCheckReturns mxs) mxRecords = true.
Proof.
  unfold validateRows. intros R.
  apply bind_returned_inv in R as [? [[] [_ R]]].
  apply bind_returned_inv in R as [? [version [Hv R]]].
  apply bind_returned_inv in R as [? [[] [_ R]]].
  apply bind_returned_inv in R as [? [mode [Hm R]]].
  apply bind_returned_inv in R as [? [[] [_ R]]].
  apply bind_returned_inv in R as [? [[] [_ R]]].
  apply bind_returned_inv in R as [? [keys [_ R]]].
  apply bind_returned_inv in R as [? [[] [_ R]]].
  apply bind_returned_inv in R as [? [mxs [Hx R]]].
  unfold Run.call in Hv, Hm, Hx.
  exists version, mode, mxs. repeat split; try congruence.
  apply mxRecords_loop_returned, R.
Qed.

(** ** The properties of the specification *)

(** *** Lookups on a line without a separator *)

(** [valueForKey] panics exactly when the first line that starts with the
    key has no [':']. *)
Lemma valueForKey_panics_iff (rows : list string) (key : string) :
  valueForKey rows key = None <->
  exists line,
    find (fun line => HasPrefix line key) rows = Some line
    /\ hasColon line = false.
Proof.
  rewrite valueForKey_find. unfold valueOf, hasColon.
  destruct (find (fun line => HasPrefix line key) rows) as [line|].
  - destruct (afterFirst line COLON) eqn:A; simpl; split.
    + discriminate.
    + intros [l [[= <-] H]]. rewrite A in H. discriminate.
    + intros _. exists line. rewrite A. auto.
    + reflexivity.
  - split; [discriminate|]. intros [l [H _]]. discriminate.
Qed.

Lemma valuesOf_panics_iff (lines : list string) :
  valuesOf lines = None <->
  exists line, In line lines /\ hasColon line = false.
Proof.
  induction lines as [|line rest IH]; cbn [valuesOf].
  - split; [discriminate|]. intros [l [[] _]].
  - unfold valueOf, hasColon in *.
    destruct (afterFirst line COLON) as [r|] eqn:A; cbn [option_map].
    + destruct (valuesOf rest) as [vs|].
      * split; [discriminate|]. intros [l [[<-|I] H]].
        -- rewrite A in H. discriminate.
        -- assert (Some vs = None) as N by (apply IH; exists l; auto).
           discriminate.
      * split; [|reflexivity]. intros _.
        destruct (proj1 IH eq_refl) as [l [I H]]. exists l.
        split; [right; exact I|exact H].
    + split; [|reflexivity]. intros _. exists line. rewrite A.
      split; [left; reflexivity|reflexivity].
Qed.

(** [valuesForKey] panics exactly when some line that starts with the
    key has no [':']. *)
Lemma valuesForKey_panics_iff (rows : list string) (key : string) :
  valuesForKey rows key = None <->
  exists line,
    In line rows /\ HasPrefix line key = true /\ hasColon line = false.
Proof.
  rewrite valuesForKey_spec.
  destruct (valuesOf (linesWith rows key)) as [vs|] eqn:V; cbn [option_map].
  - split; [discriminate|]. intros [line [I [P C]]].
    assert (valuesOf (linesWith rows key) = None) as N.
    { apply valuesOf_panics_iff. exists line. split; [|exact C].
      apply filter_In. auto. }
    congruence.
  - split; [|reflexivity]. intros _.
    apply valuesOf_panics_iff in V as [line [I C]].
    apply filter_In in I as [I P]. exists line. auto.
Qed.

(** C1.  The claim is that [valueForKey] and [valuesForKey] complete
    normally on every input, also on a line that begins with the queried
    key and has no [':'].  On such a line [fields[1]] is out of range:
    both lookups panic, and so does the validation of a policy whose
    version line lacks the separator. *)
Theorem lookups_panic_on_line_without_colon :
  valueForKey (Split policyVersionWithoutColon NL) "version" = None
  /\ valuesForKey (Split policyMxWithoutColon NL) "mx" = None
  /\ validate policyVersionWithoutColon twoExchanges = ([], None)
  /\ Run.returned (validate policyMxWithoutColon twoExchanges) = false.
Proof. repeat split; vm_compute; reflexivity. Qed.

(** *** The wildcard rule *)

(** C2.  [mxHasMatch] follows the one-level rule.  One declared pattern
    matches a host exactly so: a pattern that begins with ['.'] when it
    equals the suffix of the host from the host's first ['.'], any other
    pattern when it equals the host.  On a list of patterns and a host
    that has a ['.'], [mxHasMatch] returns whether some pattern of the
    list matches the host by that rule; on a host without a ['.'] it
    returns the same, unless the loop comes to a pattern that begins with
    ['.'] before it has met the host itself, where the slice panics.
    So [.example.com] matches [mail.example.com] and does not match
    [a.mail.example.com], alone and behind the empty pattern that
    [valuesForKey] puts first. *)
Theorem mxHasMatch_one_level_rule :
  (forall mx mxHost,
      mxHasMatch [mx] mxHost = Some true <->
      if HasPrefix mx "." then firstDotSuffix mxHost = Some mx
      else mx = mxHost)
  /\ (forall declaredMXs mxHost,
         mxHasMatch declaredMXs mxHost =
         match firstDotSuffix mxHost with
         | Some _ =>
             Some (existsb (fun mx => patternMatches mx mxHost) declaredMXs)
         | None =>
             if hasWildcard declaredMXs
                && negb (existsb (String.eqb mxHost)
                                 (beforeWildcard declaredMXs))
             then None
             else Some (existsb (fun mx => patternMatches mx mxHost)
                                declaredMXs)
         end)
  /\ (forall mxHost,
         sliceFrom mxHost (Index mxHost ".") = firstDotSuffix mxHost)
  /\ mxHasMatch [".example.com"] "mail.example.com" = Some true
  /\ mxHasMatch [".example.com"] "a.mail.example.com" = Some false
  /\ mxHasMatch (make 1 ++ [".example.com"]) "mail.example.com" = Some true
  /\ mxHasMatch (make 1 ++ [".example.com"]) "a.mail.example.com"
     = Some false.
Proof.
  split; [|split; [|split; [|repeat split]]].
  - intros mx mxHost. cbn [mxHasMatch]. rewrite sliceFrom_Index_dot.
    destruct (HasPrefix mx ".").
    + destruct (firstDotSuffix mxHost) as [suffix|].
      * destruct (String.eqb_spec suffix mx); split; congruence.
      * split; discriminate.
    + destruct (String.eqb_spec mx mxHost); split; congruence.
  - intros declaredMXs mxHost.
    destruct (firstDotSuffix mxHost) as [suffix|] eqn:E.
    + apply (mxHasMatch_dotted _ _ _ E).
    + pose proof (mxHasMatch_dotless declaredMXs mxHost E) as D.
      destruct (hasWildcard declaredMXs
                && negb (existsb (String.eqb mxHost)
                                 (beforeWildcard declaredMXs))).
      * exact D.
      * rewrite D. f_equal. apply (mxHasMatch_sound _ _ _ D).
  - exact sliceFrom_Index_dot.
Qed.

(** C9, as the claim states it: without the precondition, that is on a
    host without a dot and with a wildcard pattern declared, the slice
    panics.  Here the host has no dot, a wildcard pattern is declared,
    and [mxHasMatch] returns, because a literal pattern before the
    wildcard equals the host. *)
Lemma literal_before_wildcard_returns :
  Index "localhost" "." = (-1)%Z
  /\ hasWildcard (make 1 ++ ["localhost"; ".example.com"]) = true
  /\ mxHasMatch (make 1 ++ ["localhost"; ".example.com"]) "localhost"
     = Some true.
Proof. repeat split. Qed.

(** C9, amended.  [mxHasMatch] returns when the host has a ['.'] or no
    declared pattern begins with ['.']; it panics exactly when the host
    has no ['.'], some declared pattern begins with ['.'], and no pattern
    before the first such pattern equals the host. *)
Theorem mxHasMatch_panics_exactly_when
  (declaredMXs : list string) (mxHost : string) :
  ((0 <= Index mxHost ".")%Z \/ hasWildcard declaredMXs = false ->
   exists b, mxHasMatch declaredMXs mxHost = Some b)
  /\ (mxHasMatch declaredMXs mxHost = None <->
      Index mxHost "." = (-1)%Z
      /\ hasWildcard declaredMXs = true
      /\ existsb (String.eqb mxHost) (beforeWildcard declaredMXs) = false).
Proof.
  pose proof (Index_bounds mxHost ".") as B.
  split.
  - intros [D|W].
    + destruct (firstDotSuffix mxHost) as [suffix|] eqn:E.
      * rewrite (mxHasMatch_dotted _ _ _ E). eauto.
      * apply Index_dot_firstDotSuffix in E. lia.
    + rewrite (mxHasMatch_literal _ _ W). eauto.
  - destruct (firstDotSuffix mxHost) as [suffix|] eqn:E.
    + rewrite (mxHasMatch_dotted _ _ _ E). split; [discriminate|].
      intros [D _].
      assert (firstDotSuffix mxHost = None) as N
          by (apply Index_dot_firstDotSuffix; lia).
      congruence.
    + rewrite (mxHasMatch_dotless _ _ E).
      assert (Index mxHost "." = (-1)%Z) as ->
          by (apply Index_dot_firstDotSuffix in E; lia).
      destruct (hasWildcard declaredMXs),
        (existsb (String.eqb mxHost) (beforeWildcard declaredMXs));
        simpl; split; try discriminate; try tauto.
      all: intros [_ [? ?]]; discriminate.
Qed.

(** A dotted host with a wildcard pattern, and a dotless one. *)
Lemma mxHasMatch_panics_exactly_when_witness :
  (exists b, mxHasMatch [".example.com"] "mail.example.com" = Some b)
  /\ mxHasMatch [".example.com"] "localhost" = None.
Proof.
  split.
  - apply (proj1 (mxHasMatch_panics_exactly_when
                    [".example.com"] "mail.example.com")).
    left. vm_compute. discriminate.
  - apply (proj2 (mxHasMatch_panics_exactly_when
                    [".example.com"] "localhost")).
    repeat split.
Defined.

(** *** The value of a line *)

Lemma beforeFirst_without_sep (s : string) (sep : ascii) :
  afterFirst s sep = None -> beforeFirst s sep = s.
Proof.
  induction s as [|c s IH]; cbn [afterFirst beforeFirst]; [reflexivity|].
  destruct (Ascii.eqb c sep); [discriminate|].
  intros N. rewrite (IH N). reflexivity.
Qed.

(** C4.  The claim is that [valueForKey] returns the trimmed remainder
    of the line after its first [':'].  The code takes [fields[1]] of
    [strings.Split(line, ":")], which cuts at every [':']: of the
    remainder [backup.example.com:25] it returns [backup.example.com],
    and a policy whose version is [STSv1:junk] and whose mode is
    [enforce:junk] passes without a finding. *)
Theorem valueForKey_stops_at_second_colon :
  HasPrefix lineWithPort "mx" = true
  /\ remainderOf lineWithPort = Some "backup.example.com:25"
  /\ valueForKey [lineWithPort] "mx" = Some "backup.example.com"
  /\ remainderOf "version: STSv1:junk" = Some "STSv1:junk"
  /\ valueForKey (Split policyWithTrailers NL) "version" = Some "STSv1"
  /\ valueForKey (Split policyWithTrailers NL) "mode" = Some "enforce"
  /\ validate policyWithTrailers oneExchange = ([], Some tt).
Proof. repeat split. Qed.

(** For the first line that starts with the queried key, when it
    contains a [':'], [valueForKey] returns the trimmed part of the line
    between its first [':'] and its next [':'] (or the end of the line);
    this is the whole remainder when the remainder has no [':']. *)
Theorem valueForKey_second_field
  (rows : list string) (key line rest : string) :
  find (fun l => HasPrefix l key) rows = Some line ->
  afterFirst line COLON = Some rest ->
  valueForKey rows key = Some (TrimSpace (beforeFirst rest COLON))
  /\ (afterFirst rest COLON = None ->
      valueForKey rows key = remainderOf line).
Proof.
  intros F A. rewrite valueForKey_find, F. unfold valueOf, remainderOf.
  rewrite A. cbn [option_map]. split; [reflexivity|].
  intros N. rewrite (beforeFirst_without_sep _ _ N). reflexivity.
Qed.

(** The mode line of the complete policy. *)
Lemma valueForKey_second_field_witness :
  valueForKey (Split policyComplete NL) "mode" = Some "enforce"
  /\ valueForKey (Split policyComplete NL) "mode"
     = remainderOf "mode: enforce".
Proof.
  pose proof (valueForKey_second_field
                (Split policyComplete NL) "mode" "mode: enforce" " enforce"
                eq_refl eq_refl) as [V R].
  split; [exact V|exact (R eq_refl)].
Defined.

(** *** The keys and values that are collected *)

(** C7.  [hasKey] is true exactly when some raw line has the key as a
    prefix; on a policy whose only line has the key [version-id] and a
    value that starts with [version], no key equals [version] and
    [hasKey] is true for [version]. *)
Theorem hasKey_raw_prefix :
  (forall rows key,
      hasKey rows key = true <->
      exists line, In line rows /\ HasPrefix line key = true)
  /\ hasKey (Split policyVersionLookalike NL) "version" = true
  /\ forallb (fun line => negb (String.eqb (keyOf line) "version"))
             (Split policyVersionLookalike NL) = true
  /\ existsb (fun line =>
                match remainderOf line with
                | Some value => HasPrefix value "version"
                | None => false
                end)
             (Split policyVersionLookalike NL) = true.
Proof.
  split; [|repeat split].
  intros rows key. rewrite hasKey_existsb. apply existsb_exists.
Qed.

(** The prefix that [hasKey] finds lies before the first [':'] of the
    line: the text of a value never makes [hasKey] true. *)
Lemma HasPrefix_beforeFirst (line key : string) :
  afterFirst key COLON = None ->
  HasPrefix line key = HasPrefix (beforeFirst line COLON) key.
Proof.
  revert line. induction key as [|k key IH]; intros line; [reflexivity|].
  cbn [afterFirst]. destruct (Ascii.eqb_spec k COLON) as [E|E];
    [discriminate|]. intros N.
  destruct line as [|c line]; [reflexivity|].
  cbn [beforeFirst HasPrefix].
  destruct (Ascii.eqb_spec c COLON) as [C|C].
  - subst c. cbn [HasPrefix].
    destruct (Ascii.eqb_spec COLON k); [congruence|reflexivity].
  - cbn [HasPrefix]. rewrite (IH line N). reflexivity.
Qed.

(** C8.  The claim is that [allKeys] and [valuesForKey] return exactly
    the keys and the values, with no additional elements.  Both start
    from [make([]string, 1, 4)], a slice that already holds one empty
    string, so each result begins with an empty string that no line
    produced. *)
Theorem collectors_begin_with_empty_string :
  (forall rows, allKeys rows = Some (EmptyString :: keysOf rows))
  /\ (forall rows key,
         valuesForKey rows key =
         option_map (cons EmptyString) (valuesOf (linesWith rows key)))
  /\ allKeys (Split policyComplete NL)
     = Some [""; "version"; "mode"; "max_age"; "mx"]
  /\ valuesForKey (Split policyComplete NL) "mx"
     = Some [""; "mx1.example.com"].
Proof.
  split; [|split; [|split; reflexivity]].
  - intros rows. apply allKeys_returns.
  - intros rows key. apply valuesForKey_spec.
Qed.

(** *** The findings of the validation block *)

Lemma allPrinted_impl {A} (P Q : Finding -> bool) (m : Run.t A) :
  (forall f, P f = true -> Q f = true) -> allPrinted P m -> allPrinted Q m.
Proof.
  unfold allPrinted. intros PQ. rewrite !forallb_forall. auto.
Qed.

Lemma unknownKeys_loop_prints_unknown (keys : list string) :
  allPrinted (fun f => negb (versionRelated f)) (unknownKeys_loop keys).
Proof.
  induction keys as [|key keys IH]; cbn [unknownKeys_loop].
  - reflexivity.
  - apply allPrinted_bind; [|intros _; exact IH].
    apply allPrinted_when. reflexivity.
Qed.

Lemma mxRecords_loop_prints_no_version (mxs mxRecords : list string) :
  allPrinted (fun f => negb (versionRelated f)) (mxRecords_loop mxs mxRecords).
Proof.
  apply (allPrinted_impl isUndefinedMX).
  - intros [] H; try discriminate; reflexivity.
  - apply mxRecords_loop_prints_undefined.
Qed.

Lemma validateRows_without_version (policyRows mxRecords : list string) :
  hasKey policyRows "version" = false ->
  exists rest,
    Run.printed (validateRows policyRows mxRecords)
    = MissingVersion :: VersionNotSTSv1 :: rest
    /\ forallb (fun f => negb (versionRelated f)) rest = true.
Proof.
  intros H. unfold validateRows.
  rewrite H, (valueForKey_find policyRows "version"),
    (hasKey_false_find _ _ H).
  rewrite bind_when, bind_call_Some, bind_when. cbn [negb String.eqb].
  eexists. split; [reflexivity|].
  apply allPrinted_bind; [apply allPrinted_call|]. intros mode.
  apply allPrinted_bind; [apply allPrinted_when; reflexivity|]. intros _.
  apply allPrinted_bind; [apply allPrinted_when; reflexivity|]. intros _.
  apply allPrinted_bind; [apply allPrinted_call|]. intros keys.
  apply allPrinted_bind; [apply unknownKeys_loop_prints_unknown|]. intros _.
  apply allPrinted_bind; [apply allPrinted_call|]. intros mxs.
  apply mxRecords_loop_prints_no_version.
Qed.

(** C3, as the claim states it: a policy without a version line gets the
    missing-version finding and no other finding about the version.  This
    policy has no line that starts with [version], and the block prints
    the finding that the version must equal ['STSv1'] as well. *)
Lemma missing_version_prints_both_findings :
  hasKey (Split policyWithoutVersion NL) "version" = false
  /\ validate policyWithoutVersion oneExchange
     = ([MissingVersion; VersionNotSTSv1], Some tt).
Proof. split; reflexivity. Qed.

(** C3, amended.  For every policy text with no line that starts with
    [version], the block first prints the missing-version finding, then
    the finding that the version must equal ['STSv1'], and no further
    finding about the version. *)
Theorem missing_version_findings
  (policyResource : string) (mxRecords : list string) :
  hasKey (Split policyResource NL) "version" = false ->
  exists rest,
    Run.printed (validate policyResource mxRecords)
    = MissingVersion :: VersionNotSTSv1 :: rest
    /\ forallb (fun f => negb (versionRelated f)) rest = true.
Proof. apply validateRows_without_version. Qed.

(** The sparse policy has no version line. *)
Lemma missing_version_findings_witness :
  exists rest,
    Run.printed (validate policySparse twoExchanges)
    = MissingVersion :: VersionNotSTSv1 :: rest
    /\ forallb (fun f => negb (versionRelated f)) rest = true.
Proof.
  apply (missing_version_findings policySparse twoExchanges). reflexivity.
Defined.

(** C5.  The claim is that the findings come in the fixed order and that
    every applicable finding is emitted, whichever findings came before.
    The block has no test that ends it early, but a panic of a lookup
    does: after the two findings about the version, the mode line
    without a [':'] panics at line 64, and the findings for the missing
    max_age line and for the unknown key [foo] are never printed; and
    when [mxHasMatch] panics on the dotless first record, the record
    [other.org], which no pattern matches, is never reported. *)
Theorem panic_drops_applicable_findings :
  validate policyModeWithoutColon oneExchange
  = ([MissingVersion; VersionNotSTSv1], None)
  /\ hasKey (Split policyModeWithoutColon NL) "max_age" = false
  /\ filter isUnknownKey (keysOf (Split policyModeWithoutColon NL))
     = ["mode enforce"; "foo"]
  /\ validate policyWildcard dotlessExchanges = ([], None)
  /\ valuesForKey (Split policyWildcard NL) "mx"
     = Some (make 1 ++ [".example.com"])
  /\ mxHasMatch (make 1 ++ [".example.com"]) "localhost" = None
  /\ mxHasMatch (make 1 ++ [".example.com"]) "other.org" = Some false.
Proof. repeat split. Qed.

(** On every run in which the lookups return, the block returns and
    has printed, in this order: the missing-version finding, the finding
    that the version is not ['STSv1'], the invalid-mode finding, the
    missing-max_age finding, one finding per unknown key in the order of
    [allKeys], and one finding per unmatched resolved record in resolved
    order.  Each group is there or not by its own condition alone. *)
Theorem findings_in_fixed_order
  (policyResource : string) (mxRecords : list string)
  (version mode : string) (keys mxs : list string) :
  valueForKey (Split policyResource NL) "version" = Some version ->
  valueForKey (Split policyResource NL) "mode" = Some mode ->
  allKeys (Split policyResource NL) = Some keys ->
  valuesForKey (Split policyResource NL) "mx" = Some mxs ->
  forallb (crossCheckReturns mxs) mxRecords = true ->
  validate policyResource mxRecords =
  ((if hasKey (Split policyResource NL) "version"
    then [] else [MissingVersion])
   ++ (if String.eqb version "STSv1" then [] else [VersionNotSTSv1])
   ++ (if invalidMode mode then [InvalidMode mode] else [])
   ++ (if hasKey (Split policyResource NL) "max_age"
       then [] else [MissingMaxAge])
   ++ map UnknownKey (filter isUnknownKey keys)
   ++ map UndefinedMX (filter (unmatched mxs) mxRecords),
   Some tt).
Proof. apply validateRows_returns. Qed.

(** The sparse policy against two records, one of them undeclared. *)
Lemma findings_in_fixed_order_witness :
  validate policySparse mixedExchanges =
  ([MissingVersion; VersionNotSTSv1; InvalidMode ""; UnknownKey "foo";
    UndefinedMX "mx.example.org"],
   Some tt).
Proof.
  exact (findings_in_fixed_order policySparse mixedExchanges "" ""
           [""; "max_age"; "foo"; "mx"] [""; ".example.com"]
           eq_refl eq_refl eq_refl eq_refl eq_refl).
Defined.




(** *** A key that no line starts with *)

Lemma valueForKey_absent (rows : list string) (key : string) :
  hasKey rows key = false -> valueForKey rows key = Some EmptyString.
Proof.
  intros H. rewrite valueForKey_find, (hasKey_false_find _ _ H).
  reflexivity.
Qed.

(** C10.  The claim is that an absent key reads as the empty string and
    that, consequently, a policy with no line that starts with [mode]
    gets the invalid-mode finding with the empty value.  The lookup does
    give the empty string, but the finding is printed at line 66 only
    if the run comes that far: in this policy without a mode line the
    version line lacks the [':'], the lookup of line 60 panics, and the
    run ends with nothing printed. *)
Theorem absent_mode_is_not_reported_after_panic :
  hasKey (Split policyNoModeVersionWithoutColon NL) "mode" = false
  /\ valueForKey (Split policyNoModeVersionWithoutColon NL) "mode"
     = Some EmptyString
  /\ valueForKey (Split policyNoModeVersionWithoutColon NL) "version"
     = None
  /\ validate policyNoModeVersionWithoutColon oneExchange = ([], None).
Proof. repeat split. Qed.

(** When no line starts with the queried key, [valueForKey]
    returns the empty string.  So for a policy with no line that starts
    with [mode], the block (once the lookup of the version has returned)
    prints the invalid-mode finding with the empty value; and for a
    policy with no line that starts with [version], the version that is
    compared with ['STSv1'] is the empty string, and the finding of that
    comparison is printed. *)
Theorem absent_key_reads_as_empty
  (policyResource : string) (mxRecords : list string) :
  (forall key,
      hasKey (Split policyResource NL) key = false ->
      valueForKey (Split policyResource NL) key = Some EmptyString)
  /\ (hasKey (Split policyResource NL) "mode" = false ->
      valueForKey (Split policyResource NL) "version" <> None ->
      In (InvalidMode EmptyString)
         (Run.printed (validate policyResource mxRecords)))
  /\ (hasKey (Split policyResource NL) "version" = false ->
      valueForKey (Split policyResource NL) "version" = Some EmptyString
      /\ In VersionNotSTSv1
            (Run.printed (validate policyResource mxRecords))).
Proof.
  split; [|split].
  - intros key. apply valueForKey_absent.
  - intros Hm Hv. unfold validate, validateRows.
    destruct (valueForKey (Split policyResource NL) "version")
      as [version|]; [clear Hv|congruence].
    rewrite (valueForKey_absent _ _ Hm).
    rewrite bind_when, bind_call_Some, bind_when, bind_call_Some, bind_when.
    unfold Run.printed. cbn [fst invalidMode String.eqb negb andb].
    apply in_or_app. right. apply in_or_app. right. left. reflexivity.
  - intros Hv. split; [apply valueForKey_absent, Hv|].
    destruct (validateRows_without_version _ mxRecords Hv) as [rest [E _]].
    unfold validate. rewrite E. right. left. reflexivity.
Qed.

(** The sparse policy has neither a mode line nor a version line. *)
Lemma absent_key_reads_as_empty_witness :
  valueForKey (Split policySparse NL) "mode" = Some EmptyString
  /\ In (InvalidMode EmptyString)
        (Run.printed (validate policySparse mixedExchanges))
  /\ In VersionNotSTSv1
        (Run.printed (validate policySparse mixedExchanges)).
Proof.
  pose proof (absent_key_reads_as_empty policySparse mixedExchanges)
    as [A [M V]].
  split; [exact (A "mode" eq_refl)|split].
  - apply M; [reflexivity|discriminate].
  - exact (proj2 (V eq_refl)).
Defined.

(** ** The rest of the program *)

(** *** Suffixes and slices *)

Lemma length_append (a b : string) :
  String.length (a ++ b)%string = String.length a + String.length b.
Proof.
  induction a as [|c a IH]; simpl; [reflexivity|]. rewrite IH. reflexivity.
Qed.

Lemma substring_0_0 (s : string) : substring 0 0 s = EmptyString.
Proof. destruct s; reflexivity. Qed.

Lemma substring_append_left (a b : string) :
  substring 0 (String.length a) (a ++ b)%string = a.
Proof.
  induction a as [|c a IH]; simpl.
  - apply substring_0_0.
  - rewrite IH. reflexivity.
Qed.

Lemma substring_append_right (a b : string) :
  substring (String.length a) (String.length b) (a ++ b)%string = b.
Proof.
  induction a as [|c a IH]; simpl; [apply substring_all|exact IH].
Qed.

Lemma substring_split (s : string) :
  forall n, n <= String.length s ->
    (substring 0 n s ++ substring n (String.length s - n) s)%string = s.
Proof.
  induction s as [|c s IH]; intros n L.
  - destruct n; [reflexivity|simpl in L; lia].
  - destruct n as [|n].
    + rewrite substring_0_0, Nat.sub_0_r, substring_all. reflexivity.
    + cbn [substring String.length Nat.sub append]. simpl in L.
      rewrite IH by lia. reflexivity.
Qed.

(** [HasSuffix] is true exactly on the texts that end with the suffix. *)
Lemma HasSuffix_iff (s suffix : string) :
  HasSuffix s suffix = true <-> exists p, s = (p ++ suffix)%string.
Proof.
  unfold HasSuffix. rewrite andb_true_iff, Nat.leb_le, String.eqb_eq. split.
  - intros [L E].
    exists (substring 0 (String.length s - String.length suffix) s).
    assert (String.length s - String.length suffix <= String.length s) as B
        by lia.
    pose proof (substring_split s _ B) as S.
    replace (String.length s - (String.length s - String.length suffix))
      with (String.length suffix) in S by lia.
    rewrite E in S. symmetry. exact S.
  - intros [p ->]. rewrite length_append. split; [lia|].
    replace (String.length p + String.length suffix - String.length suffix)
      with (String.length p) by lia.
    apply substring_append_right.
Qed.

Lemma HasSuffix_false (s suffix : string) :
  HasSuffix s suffix = false <-> forall p, s <> (p ++ suffix)%string.
Proof.
  split.
  - intros F p E.
    assert (HasSuffix s suffix = true) by (apply HasSuffix_iff; eauto).
    congruence.
  - intros N. destruct (HasSuffix s suffix) eqn:H; [|reflexivity].
    apply HasSuffix_iff in H as [p E]. destruct (N p E).
Qed.

Lemma trimSuffix_append (s suffix : string) :
  trimSuffix (s ++ suffix) suffix = Some s.
Proof.
  unfold trimSuffix.
  assert (HasSuffix (s ++ suffix) suffix = true) as ->
      by (apply HasSuffix_iff; eauto).
  unfold sliceTo. rewrite length_append.
  replace (Z.of_nat (String.length s + String.length suffix)
           - Z.of_nat (String.length suffix))%Z
    with (Z.of_nat (String.length s)) by lia.
  rewrite Nat2Z.id, substring_append_left.
  destruct (Z.leb_spec 0 (Z.of_nat (String.length s))); [|lia].
  destruct (Z.leb_spec (Z.of_nat (String.length s))
              (Z.of_nat (String.length s + String.length suffix)));
    [reflexivity|lia].
Qed.

(** X1.  [trimSuffix] never panics: it removes the suffix from a text
    that ends with it, once, and returns any other text as it is. *)
Theorem trimSuffix_removes_one_suffix :
  (forall s suffix, trimSuffix (s ++ suffix) suffix = Some s)
  /\ (forall s suffix,
         (forall p, s <> (p ++ suffix)%string) ->
         trimSuffix s suffix = Some s).
Proof.
  split; [exact trimSuffix_append|].
  intros s suffix N. unfold trimSuffix.
  rewrite (proj2 (HasSuffix_false s suffix) N). reflexivity.
Qed.

(** A host with the root dot, and a text that does not end with the
    suffix. *)
Lemma trimSuffix_removes_one_suffix_witness :
  trimSuffix "mx.example.com." "." = Some "mx.example.com"
  /\ trimSuffix "mx.example.com" ".org" = Some "mx.example.com".
Proof.
  destruct trimSuffix_removes_one_suffix as [A N]. split.
  - exact (A "mx.example.com" ".").
  - apply (N "mx.example.com" ".org"). intros p E.
    assert (HasSuffix "mx.example.com" ".org" = true) as H
        by (apply HasSuffix_iff; eauto).
    discriminate H.
Defined.

Lemma normalizeDomain_withoutRootDot (domain : string) :
  normalizeDomain domain = Some (withoutRootDot domain).
Proof.
  unfold normalizeDomain, withoutRootDot.
  destruct (HasSuffix domain ".") eqn:H; [|reflexivity].
  apply HasSuffix_iff in H as [p ->].
  rewrite trimSuffix_append, length_append. cbn [String.length].
  replace (String.length p + 1 - 1) with (String.length p) by lia.
  rewrite substring_append_left. reflexivity.
Qed.

(** X2.  [normalizeDomain] never panics and removes exactly one trailing
    dot: a name that ends with a dot loses that dot and no other, and a
    name that does not end with a dot is returned as it is. *)
Theorem normalizeDomain_strips_one_dot :
  (forall domain, normalizeDomain (domain ++ ".") = Some domain)
  /\ (forall domain,
         normalizeDomain domain = Some domain <->
         forall p, domain <> (p ++ ".")%string).
Proof.
  split.
  - intros domain. unfold normalizeDomain.
    assert (HasSuffix (domain ++ ".") "." = true) as ->
        by (apply HasSuffix_iff; eauto).
    apply trimSuffix_append.
  - intros domain. rewrite <- HasSuffix_false. unfold normalizeDomain.
    destruct (HasSuffix domain ".") eqn:H.
    + split; [|discriminate]. apply HasSuffix_iff in H as [p ->].
      rewrite trimSuffix_append. intros [= E].
      apply (f_equal String.length) in E. rewrite length_append in E.
      simpl in E. lia.
    + split; reflexivity.
Qed.

(** *** Runs of the whole program *)

Lemma proc_bind_events {A B} (m : Proc.t A) (k : A -> Proc.t B) :
  fst (Proc.bind m k) =
  fst m ++ match snd m with
           | inl a => fst (k a)
           | inr _ => []
           end.
Proof.
  unfold Proc.bind. destruct m as [out [a|stop]]; cbn [fst snd].
  - destruct (k a). reflexivity.
  - rewrite app_nil_r. reflexivity.
Qed.

Lemma proc_bind_result {A B} (m : Proc.t A) (k : A -> Proc.t B) :
  snd (Proc.bind m k) =
  match snd m with
  | inl a => snd (k a)
  | inr stop => inr stop
  end.
Proof.
  unfold Proc.bind. destruct m as [out [a|stop]]; cbn [fst snd].
  - destruct (k a). reflexivity.
  - reflexivity.
Qed.

Lemma findingsOf_app (l1 l2 : list Event) :
  findingsOf (l1 ++ l2) = findingsOf l1 ++ findingsOf l2.
Proof.
  induction l1 as [|e l1 IH]; [reflexivity|].
  destruct e; cbn [app findingsOf]; rewrite IH; reflexivity.
Qed.

Lemma findingsOf_block (findings : list Finding) :
  findingsOf (map PrintedFinding findings) = findings.
Proof.
  induction findings as [|f l IH]; [reflexivity|].
  cbn [map findingsOf]. rewrite IH. reflexivity.
Qed.


(** *** [mxRecords] *)

Lemma mxRecords_append_spec (mxs : list MX) :
  forall records,
    mxRecords_append mxs records =
    Some (records ++ map (fun mx => withoutRootDot (Host mx)) mxs).
Proof.
  induction mxs as [|mx rest IH]; intros records; cbn [mxRecords_append map].
  - rewrite app_nil_r. reflexivity.
  - rewrite normalizeDomain_withoutRootDot, IH, <- app_assoc. reflexivity.
Qed.

Lemma mxRecords_answer (net : Network) (domain : string) :
  mxRecords net domain =
  match LookupMX net domain with
  | inl mxs => ([AskedMX domain], inl (recordsOf mxs))
  | inr err => ([AskedMX domain; LoggedFatal err], inr Exit1)
  end.
Proof.
  unfold mxRecords. destruct (LookupMX net domain) as [mxs|err];
    [|reflexivity].
  rewrite mxRecords_append_spec. reflexivity.
Qed.

(** X3.  [mxRecords] asks the resolver once.  When the lookup fails the
    run ends with [log.Fatal]; otherwise [mxRecords] returns, without a
    panic, one empty string followed by the resolved hosts in resolved
    order, each as [normalizeDomain] gives it. *)
Theorem mxRecords_returns_normalized_hosts
  (net : Network) (domain : string) :
  match LookupMX net domain with
  | inl mxs =>
      exists hosts,
        mxRecords net domain = ([AskedMX domain], inl (EmptyString :: hosts))
        /\ Forall2 (fun mx host => normalizeDomain (Host mx) = Some host)
                   mxs hosts
  | inr err =>
      mxRecords net domain = ([AskedMX domain; LoggedFatal err], inr Exit1)
  end.
Proof.
  rewrite mxRecords_answer. destruct (LookupMX net domain) as [mxs|err];
    [|reflexivity].
  exists (map (fun mx => withoutRootDot (Host mx)) mxs).
  split; [reflexivity|].
  induction mxs as [|mx rest IH]; constructor;
    [apply normalizeDomain_withoutRootDot|exact IH].
Qed.

(** *** [stsDNSCheck] *)

Lemma stsDNSCheck_loop_spec (txt : list string) :
  (stsDNSCheck_loop txt = EmptyString
   /\ Forall (fun element => HasPrefix element stsMarker = false) txt)
  \/ (exists before after,
         txt = before ++ stsDNSCheck_loop txt :: after
         /\ Forall (fun element => HasPrefix element stsMarker = false)
                   before
         /\ HasPrefix (stsDNSCheck_loop txt) stsMarker = true).
Proof.
  induction txt as [|element rest IH]; cbn [stsDNSCheck_loop].
  - left. split; [reflexivity|constructor].
  - fold stsMarker. destruct (HasPrefix element stsMarker) eqn:P.
    + right. exists [], rest. repeat split; [constructor|exact P].
    + destruct IH as [[E F]|[before [after [E [F Q]]]]].
      * left. split; [exact E|constructor; assumption].
      * right. exists (element :: before), after.
        repeat split; [cbn [app]; congruence|constructor; assumption
                      |exact Q].
Qed.

(** X4.  [stsDNSCheck] asks for the TXT records once and always returns:
    a failed lookup is printed and gives the empty string.  Otherwise it
    gives the first TXT record that starts with ["v=STSv1; "], and the
    empty string when no record starts so; a record it gives is never
    empty. *)
Theorem stsDNSCheck_first_marked_record (net : Network) (domain : string) :
  match LookupTXT net domain with
  | inr err =>
      stsDNSCheck net domain
      = ([AskedTXT domain; PrintedTXTError err], inl EmptyString)
  | inl txt =>
      exists stsRecord,
        stsDNSCheck net domain = ([AskedTXT domain], inl stsRecord)
        /\ ((stsRecord = EmptyString
             /\ Forall (fun element => HasPrefix element stsMarker = false)
                       txt)
            \/ (exists before after,
                   txt = before ++ stsRecord :: after
                   /\ Forall
                        (fun element => HasPrefix element stsMarker = false)
                        before
                   /\ HasPrefix stsRecord stsMarker = true
                   /\ (0 <? String.length stsRecord)%nat = true))
  end.
Proof.
  unfold stsDNSCheck. destruct (LookupTXT net domain) as [txt|err];
    [|reflexivity].
  exists (stsDNSCheck_loop txt). split; [reflexivity|].
  destruct (stsDNSCheck_loop_spec txt) as [H|[before [after [E [F Q]]]]];
    [left; exact H|right].
  exists before, after. repeat split; try assumption.
  destruct (stsDNSCheck_loop txt); [discriminate Q|reflexivity].
Qed.

(** *** [tlsTest] *)

Lemma tlsTest_returns (net : Network) (host port : string) :
  snd (tlsTest net host port) = inl tt.
Proof.
  unfold tlsTest. cbv zeta. rewrite proc_bind_result. cbn [Proc.emit snd].
  destruct (Dial net (host ++ ":" ++ port)%string) as [c|err];
    [|reflexivity].
  rewrite proc_bind_result. cbn [Proc.emit snd].
  destruct (StartTLS c host); reflexivity.
Qed.


Lemma tlsTest_findings (net : Network) (host port : string) :
  findingsOf (fst (tlsTest net host port)) = [].
Proof.
  unfold tlsTest. cbv zeta. rewrite proc_bind_events.
  cbn [Proc.emit fst snd app findingsOf].
  destruct (Dial net (host ++ ":" ++ port)%string) as [c|err];
    [|reflexivity].
  rewrite proc_bind_events. cbn [Proc.emit fst snd app findingsOf].
  destruct (StartTLS c host); reflexivity.
Qed.

Lemma tlsTest_loop_returns (net : Network) (records : list string) :
  snd (tlsTest_loop net records) = inl tt.
Proof.
  induction records as [|record rest IH]; cbn [tlsTest_loop];
    [reflexivity|].
  rewrite proc_bind_result.
  destruct (0 <? String.length record)%nat;
    [rewrite tlsTest_returns|cbn [Proc.ret snd]]; exact IH.
Qed.


Lemma tlsTest_loop_findings (net : Network) (records : list string) :
  findingsOf (fst (tlsTest_loop net records)) = [].
Proof.
  induction records as [|record rest IH]; cbn [tlsTest_loop];
    [reflexivity|].
  rewrite proc_bind_events, findingsOf_app.
  destruct (0 <? String.length record)%nat.
  - rewrite tlsTest_findings, tlsTest_returns, IH. reflexivity.
  - cbn [Proc.ret fst snd findingsOf app]. exact IH.
Qed.

(** *** [main] *)

Lemma stsDNSCheck_returns (net : Network) (domain : string) :
  exists stsRecord, snd (stsDNSCheck net domain) = inl stsRecord.
Proof.
  unfold stsDNSCheck. destruct (LookupTXT net domain); eexists; reflexivity.
Qed.


Lemma stsDNSCheck_findings (net : Network) (domain : string) :
  findingsOf (fst (stsDNSCheck net domain)) = [].
Proof.
  unfold stsDNSCheck. destruct (LookupTXT net domain); reflexivity.
Qed.


Lemma queryHTTPSRecord_findings (net : Network) (url : string) :
  findingsOf (fst (queryHTTPSRecord net url)) = [].
Proof.
  unfold queryHTTPSRecord. destruct (Get net url) as [response|err];
    [|reflexivity].
  destruct (ReadAll response); reflexivity.
Qed.

Lemma queryHTTPSRecord_result (net : Network) (url : string) :
  snd (queryHTTPSRecord net url) =
  match Get net url with
  | inr _ => inr Exit1
  | inl response =>
      match ReadAll response with
      | inr _ => inr Exit1
      | inl responseString => inl responseString
      end
  end.
Proof.
  unfold queryHTTPSRecord. destruct (Get net url) as [response|err];
    [|reflexivity].
  destruct (ReadAll response); reflexivity.
Qed.


(** The findings and the result of a run. *)
Lemma main_outcome (net : Network) (domain : string) :
  (findingsOf (Proc.events (main net domain)), snd (main net domain)) =
  if String.eqb domain "" then ([], inr Exit1)
  else
    match LookupMX net domain with
    | inr _ => ([], inr Exit1)
    | inl mxs =>
        match Get net (policyURL domain) with
        | inr _ => ([], inr Exit1)
        | inl response =>
            match ReadAll response with
            | inr _ => ([], inr Exit1)
            | inl responseString =>
                (Run.printed (validate responseString (recordsOf mxs)),
                 if Run.returned (validate responseString (recordsOf mxs))
                 then inl tt else inr Panic)
            end
        end
    end.
Proof.
  unfold Proc.events, main.
  rewrite proc_bind_events, proc_bind_result, findingsOf_app.
  destruct (String.eqb domain ""); [reflexivity|].
  cbn [Proc.ret fst snd findingsOf app].
  rewrite proc_bind_events, proc_bind_result, findingsOf_app,
    mxRecords_answer.
  destruct (LookupMX net domain) as [mxs|err]; [|reflexivity].
  cbn [fst snd findingsOf app].
  rewrite proc_bind_events, proc_bind_result, findingsOf_app,
    tlsTest_loop_findings, tlsTest_loop_returns.
  cbn [app].
  fold (txtName domain). fold (policyURL domain).
  rewrite proc_bind_events, proc_bind_result, findingsOf_app,
    stsDNSCheck_findings.
  destruct (stsDNSCheck_returns net (txtName domain)) as [stsRecord ->].
  cbn [app].
  rewrite proc_bind_events, proc_bind_result, findingsOf_app.
  destruct (0 <? String.length stsRecord)%nat;
    cbn [Proc.emit fst snd findingsOf app];
    rewrite proc_bind_events, proc_bind_result, findingsOf_app,
      queryHTTPSRecord_findings, queryHTTPSRecord_result;
    cbn [app].
  all: destruct (Get net (policyURL domain)) as [response|err];
    [|reflexivity].
  all: destruct (ReadAll response) as [responseString|err]; [|reflexivity].
  all: unfold Proc.block, Run.printed, Run.returned; cbn [fst snd].
  all: rewrite findingsOf_block.
  all: destruct (snd (validate responseString (recordsOf mxs))) as [[]|];
    reflexivity.
Qed.


(** X6.  The exit status and the findings of a run do not depend on the
    probes or on the TXT lookup.  The status is 1 when the domain is
    empty, when the MX lookup fails and when the policy cannot be
    fetched or read, and then no finding is printed; otherwise the
    findings are those of the validation block on the fetched policy and
    the records of [mxRecords], and the status is 0, however many
    findings there are, unless the block panics (status 2). *)
Theorem main_status_and_findings (net : Network) (domain : string) :
  (findingsOf (Proc.events (main net domain)), Proc.status (main net domain))
  =
  if String.eqb domain "" then ([], 1%Z)
  else
    match LookupMX net domain with
    | inr _ => ([], 1%Z)
    | inl mxs =>
        match Get net (policyURL domain) with
        | inr _ => ([], 1%Z)
        | inl response =>
            match ReadAll response with
            | inr _ => ([], 1%Z)
            | inl responseString =>
                (Run.printed (validate responseString (recordsOf mxs)),
                 if Run.returned (validate responseString (recordsOf mxs))
                 then 0%Z else 2%Z)
            end
        end
    end.
Proof.
  pose proof (main_outcome net domain) as O. unfold Proc.status.
  destruct (String.eqb domain "").
  { injection O as -> ->. reflexivity. }
  destruct (LookupMX net domain) as [mxs|err].
  2: { injection O as -> ->. reflexivity. }
  destruct (Get net (policyURL domain)) as [response|err].
  2: { injection O as -> ->. reflexivity. }
  destruct (ReadAll response) as [responseString|err].
  2: { injection O as -> ->. reflexivity. }
  injection O as -> ->.
  destruct (Run.returned (validate responseString (recordsOf mxs)));
    reflexivity.
Qed.

(** *** Declared hosts *)

Lemma patternMatches_self (host : string) : patternMatches host host = true.
Proof.
  unfold patternMatches. destruct (HasPrefix host ".") eqn:W.
  - destruct host as [|c host]; [discriminate W|].
    rewrite HasPrefix_dot in W. cbn [firstDotSuffix]. rewrite W.
    apply String.eqb_refl.
  - apply String.eqb_refl.
Qed.

Lemma declared_matches (declaredMXs : list string) (host : string) :
  In host declaredMXs ->
  existsb (fun mx => patternMatches mx host) declaredMXs = true.
Proof.
  intros I. apply existsb_exists. exists host.
  split; [exact I|apply patternMatches_self].
Qed.





(** *** A policy without findings *)

Lemma valueForKey_nonempty_hasKey (rows : list string) (key value : string) :
  valueForKey rows key = Some value -> value <> EmptyString ->
  hasKey rows key = true.
Proof.
  intros V N. destruct (hasKey rows key) eqn:H; [reflexivity|].
  rewrite (valueForKey_absent _ _ H) in V. congruence.
Qed.

Lemma declaredAndDotted_returns (mxs mxRecords : list string) :
  declaredAndDotted mxs (hostsOf mxRecords) = true ->
  forallb (crossCheckReturns mxs) mxRecords = true
  /\ filter (unmatched mxs) mxRecords = [].
Proof.
  unfold declaredAndDotted, hostsOf.
  induction mxRecords as [|record rest IH]; cbn [filter forallb];
    [split; reflexivity|].
  unfold crossCheckReturns at 1. unfold unmatched at 1.
  destruct (0 <? String.length record)%nat; cbn [forallb negb orb andb].
  - intros H. apply andb_prop in H as [Hr Hrest].
    apply andb_prop in Hr as [D S].
    destruct (IH Hrest) as [C F].
    destruct (firstDotSuffix record) as [suffix|] eqn:E; [|discriminate].
    rewrite (mxHasMatch_dotted _ _ _ E), C, F.
    assert (existsb (fun mx => patternMatches mx record) mxs = true) as ->.
    { apply declared_matches. apply existsb_exists in D as [mx [I Q]].
      apply String.eqb_eq in Q. subst mx. exact I. }
    split; reflexivity.
  - exact IH.
Qed.

Lemma clean_policy_validates (policyRows mxRecords : list string)
  (mode : string) (mxs : list string) :
  valueForKey policyRows "version" = Some "STSv1" ->
  valueForKey policyRows "mode" = Some mode ->
  invalidMode mode = false ->
  hasKey policyRows "max_age" = true ->
  filter isUnknownKey (keysOf policyRows) = [] ->
  valuesForKey policyRows "mx" = Some mxs ->
  declaredAndDotted mxs (hostsOf mxRecords) = true ->
  validateRows policyRows mxRecords = ([], Some tt).
Proof.
  intros Hv Hm Im Ha Hk Hx Hd.
  destruct (declaredAndDotted_returns _ _ Hd) as [C F].
  rewrite (validateRows_returns _ _ _ _ _ _ Hv Hm
             (allKeys_returns _) Hx C).
  unfold findingsInOrder.
  rewrite (valueForKey_nonempty_hasKey _ _ _ Hv) by discriminate.
  rewrite Im, Ha, F. cbn [String.eqb Ascii.eqb Bool.eqb app map].
  unfold make. cbn [repeat app filter isUnknownKey String.eqb negb andb].
  rewrite Hk. reflexivity.
Qed.

(** X8.  A run prints no finding and ends with status 0 when the MX
    lookup and the fetch of the policy succeed, [valueForKey] returns
    ['STSv1'] for [version] and a valid mode for [mode], the policy has
    a max_age line and no unknown key, [valuesForKey] returns for [mx]
    (no line that starts with [mx] lacks its [':']), and every resolved
    host, without its root dot, has a ['.'] and is in the list that
    [valuesForKey] returned; the probes and the TXT lookup do not
    matter. *)
Theorem clean_run_prints_no_finding
  (net : Network) (domain : string) (resolved : list MX)
  (response : Response) (policyResource mode : string)
  (mxs : list string) :
  String.eqb domain "" = false ->
  LookupMX net domain = inl resolved ->
  Get net (policyURL domain) = inl response ->
  ReadAll response = inl policyResource ->
  valueForKey (Split policyResource NL) "version" = Some "STSv1" ->
  valueForKey (Split policyResource NL) "mode" = Some mode ->
  invalidMode mode = false ->
  hasKey (Split policyResource NL) "max_age" = true ->
  filter isUnknownKey (keysOf (Split policyResource NL)) = [] ->
  valuesForKey (Split policyResource NL) "mx" = Some mxs ->
  declaredAndDotted mxs (hostsOf (recordsOf resolved)) = true ->
  findingsOf (Proc.events (main net domain)) = []
  /\ Proc.status (main net domain) = 0%Z.
Proof.
  intros Hd Hl Hg Hr Hv Hm Im Ha Hk Hx Hdd.
  pose proof (main_outcome net domain) as O.
  rewrite Hd, Hl, Hg, Hr in O. unfold validate in O.
  rewrite (clean_policy_validates _ _ _ _ Hv Hm Im Ha Hk Hx Hdd) in O.
  injection O as F S. unfold Proc.status. rewrite F, S. split; reflexivity.
Qed.

(** The end-to-end scenario: the host is resolved as [mx.example.com.]
    and declared as [mx.example.com]. *)
Lemma clean_run_prints_no_finding_witness :
  findingsOf (Proc.events (main scenarioNetwork "example.com")) = []
  /\ Proc.status (main scenarioNetwork "example.com") = 0%Z.
Proof.
  exact (clean_run_prints_no_finding scenarioNetwork "example.com"
           [ {| Host := "mx.example.com."; Pref := 10 |} ]
           {| ReadAll := inl policyScenario |} policyScenario "enforce"
           [""; "mx.example.com"]
           eq_refl eq_refl eq_refl eq_refl eq_refl eq_refl eq_refl eq_refl
           eq_refl eq_refl eq_refl).
Defined.

(** *** The empty strings of [make([]string, 1, 4)] *)

Lemma mxHasMatch_empty_pattern (mxs : list string) (record : string) :
  (0 <? String.length record)%nat = true ->
  mxHasMatch (EmptyString :: mxs) record = mxHasMatch mxs record.
Proof.
  intros N. cbn [mxHasMatch HasPrefix].
  destruct record as [|c record]; [discriminate N|reflexivity].
Qed.

Lemma mxRecords_loop_empty_pattern (mxs mxRecords : list string) :
  mxRecords_loop (EmptyString :: mxs) mxRecords
  = mxRecords_loop mxs mxRecords.
Proof.
  induction mxRecords as [|record rest IH]; cbn [mxRecords_loop];
    [reflexivity|].
  rewrite IH. destruct (0 <? String.length record)%nat eqn:N;
    [|reflexivity].
  rewrite (mxHasMatch_empty_pattern _ _ N). reflexivity.
Qed.

(** X9.  The empty string that [make([]string, 1, 4)] puts in front of
    the results of [mxRecords], [valuesForKey] and [allKeys] has no
    effect in [main]: the probes, the cross-check and the unknown-key
    loop do the same with it as without it. *)
Theorem planted_empty_strings_have_no_effect
  (net : Network) (mxs records keys : list string) :
  tlsTest_loop net (make 1 ++ records) = tlsTest_loop net records
  /\ mxRecords_loop (make 1 ++ mxs) (make 1 ++ records)
     = mxRecords_loop mxs records
  /\ unknownKeys_loop (make 1 ++ keys) = unknownKeys_loop keys.
Proof.
  unfold make. cbn [repeat app]. repeat split.
  - cbn [tlsTest_loop String.length Nat.ltb Nat.leb].
    unfold Proc.bind, Proc.ret.
    destruct (tlsTest_loop net records). reflexivity.
  - rewrite mxRecords_loop_empty_pattern.
    cbn [mxRecords_loop String.length Nat.ltb Nat.leb].
    rewrite bind_ret. reflexivity.
  - cbn [unknownKeys_loop]. rewrite bind_when.
    destruct (unknownKeys_loop keys). reflexivity.
Qed.

(** *** The patterns as a set *)

Lemma existsb_Permutation {A} (f : A -> bool) (l l' : list A) :
  Permutation l l' -> existsb f l = existsb f l'.
Proof.
  induction 1 as [|x l l' _ IH|x y l|l l' l'' _ IH1 _ IH2]; cbn [existsb].
  - reflexivity.
  - rewrite IH. reflexivity.
  - destruct (f x), (f y); reflexivity.
  - congruence.
Qed.

(** X10.  For a host that has a ['.'], [mxHasMatch] does not depend on
    the order of the declared patterns. *)
Theorem mxHasMatch_dotted_host_ignores_order
  (declaredMXs declaredMXs' : list string) (mxHost : string) :
  (0 <= Index mxHost ".")%Z ->
  Permutation declaredMXs declaredMXs' ->
  mxHasMatch declaredMXs mxHost = mxHasMatch declaredMXs' mxHost.
Proof.
  intros D P. destruct (firstDotSuffix mxHost) as [suffix|] eqn:E.
  - rewrite !(mxHasMatch_dotted _ _ _ E).
    rewrite (existsb_Permutation _ _ _ P). reflexivity.
  - apply Index_dot_firstDotSuffix in E. lia.
Qed.

(** Two patterns, swapped. *)
Lemma mxHasMatch_dotted_host_ignores_order_witness :
  mxHasMatch ["mx1.example.com"; ".example.com"] "mail.example.com"
  = mxHasMatch [".example.com"; "mx1.example.com"] "mail.example.com".
Proof.
  apply mxHasMatch_dotted_host_ignores_order.
  - vm_compute. discriminate.
  - apply perm_swap.
Defined.

(** *** The wildcard rule, by labels *)

Lemma firstDotSuffix_label (host suffix : string) :
  firstDotSuffix host = Some suffix <->
  exists label,
    host = (label ++ suffix)%string
    /\ firstDotSuffix label = None
    /\ HasPrefix suffix "." = true.
Proof.
  revert suffix. induction host as [|c host IH]; intros suffix;
    cbn [firstDotSuffix].
  - split; [discriminate|]. intros [label [E [_ W]]].
    destruct label; [|discriminate E]. cbn [append] in E. subst suffix.
    discriminate W.
  - destruct (Ascii.eqb c "."%char) eqn:C.
    + split.
      * intros [= <-]. exists EmptyString. repeat split.
        rewrite HasPrefix_dot. exact C.
      * intros [label [E [N W]]]. destruct label as [|c' label].
        -- cbn [append] in E. congruence.
        -- cbn [append] in E. injection E as <- _.
           cbn [firstDotSuffix] in N. rewrite C in N. discriminate N.
    + rewrite IH. split.
      * intros [label [-> [N W]]]. exists (String c label).
        repeat split; [|exact W]. cbn [firstDotSuffix]. rewrite C. exact N.
      * intros [label [E [N W]]]. destruct label as [|c' label].
        -- cbn [append] in E. subst suffix. rewrite HasPrefix_dot in W.
           congruence.
        -- cbn [append] in E. injection E as <- ->.
           cbn [firstDotSuffix] in N. rewrite C in N.
           exists label. auto.
Qed.

(** X11.  A pattern that begins with ['.'] matches exactly the hosts that
    are the pattern with one label, free of dots and possibly empty, in
    front of it. *)
Theorem wildcard_matches_one_label (mx mxHost : string) :
  HasPrefix mx "." = true ->
  (mxHasMatch [mx] mxHost = Some true <->
   exists label,
     mxHost = (label ++ mx)%string /\ (Index label "." = -1)%Z).
Proof.
  intros W. cbn [mxHasMatch]. rewrite W, sliceFrom_Index_dot. split.
  - destruct (firstDotSuffix mxHost) as [suffix|] eqn:E; [|discriminate].
    destruct (String.eqb_spec suffix mx) as [->|]; [|discriminate].
    intros _. apply firstDotSuffix_label in E as [label [E [N _]]].
    exists label. split; [exact E|].
    pose proof (Index_bounds label ".").
    apply Index_dot_firstDotSuffix in N. lia.
  - intros [label [E N]].
    assert (firstDotSuffix mxHost = Some mx) as ->.
    { apply firstDotSuffix_label. exists label. repeat split; try assumption.
      apply Index_dot_firstDotSuffix. lia. }
    rewrite String.eqb_refl. reflexivity.
Qed.

(** One label in front of the pattern. *)
Lemma wildcard_matches_one_label_witness :
  mxHasMatch [".example.com"] "mail.example.com" = Some true.
Proof.
  apply (wildcard_matches_one_label ".example.com" "mail.example.com");
    [reflexivity|].
  exists "mail". split; reflexivity.
Defined.

(** *** The unknown keys that are reported *)

Lemma filter_none {A} (P Q : A -> bool) (l : list A) :
  forallb P l = true -> (forall a, P a = true -> Q a = false) ->
  filter Q l = [].
Proof.
  intros F PQ. induction l as [|a l IH]; [reflexivity|].
  cbn [forallb] in F. apply andb_prop in F as [Pa F].
  cbn [filter]. rewrite (PQ a Pa). exact (IH F).
Qed.

Lemma filter_isUnknownKeyFinding_map (keys : list string) :
  filter isUnknownKeyFinding (map UnknownKey keys) = map UnknownKey keys.
Proof.
  induction keys as [|key keys IH]; [reflexivity|].
  cbn [map filter isUnknownKeyFinding]. rewrite IH. reflexivity.
Qed.

(** X12.  Once the lookups of the version and of the mode have returned,
    the unknown-key findings that the block prints are exactly the
    trimmed non-empty keys of the lines that are none of [version],
    [mode], [max_age] and [mx], one finding per line, in document
    order, whether or not the block panics afterwards. *)
Theorem unknown_key_findings_are_exact
  (policyRows mxRecords : list string) (version mode : string) :
  valueForKey policyRows "version" = Some version ->
  valueForKey policyRows "mode" = Some mode ->
  filter isUnknownKeyFinding
    (Run.printed (validateRows policyRows mxRecords))
  = map UnknownKey (filter isUnknownKey (keysOf policyRows)).
Proof.
  intros Hv Hm. unfold validateRows, Run.printed.
  rewrite Hv, Hm, allKeys_returns.
  rewrite bind_when, bind_call_Some, bind_when, bind_call_Some,
    bind_when, bind_when, bind_call_Some.
  rewrite (bind_returned_eq _ _ _ _ (unknownKeys_loop_spec _)).
  cbn [fst]. rewrite !filter_app, filter_isUnknownKeyFinding_map.
  assert (filter isUnknownKeyFinding
            (fst (mxs <- Run.call (valuesForKey policyRows "mx");;
                  mxRecords_loop mxs mxRecords)) = []) as ->.
  { apply (filter_none isUndefinedMX).
    - apply allPrinted_bind; [apply allPrinted_call|].
      intros mxs. apply mxRecords_loop_prints_undefined.
    - intros [] H; try discriminate H; reflexivity. }
  rewrite app_nil_r.
  destruct (negb (hasKey policyRows "version")),
    (negb (String.eqb version "STSv1")), (invalidMode mode),
    (negb (hasKey policyRows "max_age")); reflexivity.
Qed.

(** The sparse policy has the unknown key [foo]; its mx line makes the
    cross-check of a dotless record panic afterwards. *)
Lemma unknown_key_findings_are_exact_witness :
  filter isUnknownKeyFinding
    (Run.printed (validateRows (Split policySparse NL) ["localhost"]))
  = [UnknownKey "foo"]
  /\ Run.returned (validateRows (Split policySparse NL) ["localhost"])
     = false.
Proof.
  split; [|reflexivity].
  exact (unknown_key_findings_are_exact
           (Split policySparse NL) ["localhost"] "" "" eq_refl eq_refl).
Defined.

(** *** Lines that the block does not see *)

Lemma bind_ext {A B} (m : Run.t A) (k k' : A -> Run.t B) :
  (forall a, k a = k' a) -> Run.bind m k = Run.bind m k'.
Proof.
  intros E. unfold Run.bind. destruct m as [out [a|]]; [|reflexivity].
  rewrite E. reflexivity.
Qed.

(** The block reads the rows through its five lookups only. *)
Lemma validateRows_ext (rows rows' mxRecords : list string) :
  hasKey rows "version" = hasKey rows' "version" ->
  valueForKey rows "version" = valueForKey rows' "version" ->
  valueForKey rows "mode" = valueForKey rows' "mode" ->
  hasKey rows "max_age" = hasKey rows' "max_age" ->
  allKeys rows = allKeys rows' ->
  valuesForKey rows "mx" = valuesForKey rows' "mx" ->
  validateRows rows mxRecords = validateRows rows' mxRecords.
Proof.
  intros H1 H2 H3 H4 H5 H6. unfold validateRows.
  rewrite H1. apply bind_ext. intros _.
  rewrite H2. apply bind_ext. intros version. apply bind_ext. intros _.
  rewrite H3. apply bind_ext. intros mode. apply bind_ext. intros _.
  rewrite H4. apply bind_ext. intros _.
  rewrite H5. apply bind_ext. intros keys. apply bind_ext. intros _.
  rewrite H6. reflexivity.
Qed.

Lemma find_without (key : string) (before after : list string)
  (line : string) :
  HasPrefix line key = false ->
  find (fun l => HasPrefix l key) (before ++ line :: after)
  = find (fun l => HasPrefix l key) (before ++ after).
Proof.
  intros N. induction before as [|l before IH]; cbn [app find].
  - rewrite N. reflexivity.
  - rewrite IH. reflexivity.
Qed.

Lemma linesWith_without (key : string) (before after : list string)
  (line : string) :
  HasPrefix line key = false ->
  linesWith (before ++ line :: after) key = linesWith (before ++ after) key.
Proof.
  intros N. unfold linesWith. rewrite !filter_app. cbn [filter].
  rewrite N. reflexivity.
Qed.

Lemma keysOf_without (before after : list string) (line : string) :
  keyOf line = EmptyString ->
  keysOf (before ++ line :: after) = keysOf (before ++ after).
Proof.
  intros E. unfold keysOf. rewrite !map_app, !filter_app.
  cbn [map filter]. rewrite E. reflexivity.
Qed.

Lemma validateRows_without (before after mxRecords : list string)
  (line : string) :
  ignorable line = true ->
  validateRows (before ++ line :: after) mxRecords
  = validateRows (before ++ after) mxRecords.
Proof.
  unfold ignorable. rewrite !andb_true_iff, !negb_true_iff, String.eqb_eq.
  intros [[[[V M] A] X] K].
  apply validateRows_ext.
  - rewrite !hasKey_existsb, !existsb_app. cbn [existsb]. rewrite V.
    reflexivity.
  - rewrite !valueForKey_find, (find_without _ _ _ _ V). reflexivity.
  - rewrite !valueForKey_find, (find_without _ _ _ _ M). reflexivity.
  - rewrite !hasKey_existsb, !existsb_app. cbn [existsb]. rewrite A.
    reflexivity.
  - rewrite !allKeys_returns, (keysOf_without _ _ _ K). reflexivity.
  - rewrite !valuesForKey_spec, (linesWith_without _ _ _ _ X). reflexivity.
Qed.

Lemma Split_append_sep (s : string) (sep : ascii) :
  Split (s ++ String sep EmptyString) sep = Split s sep ++ [EmptyString].
Proof.
  induction s as [|c s IH]; cbn [append Split].
  - rewrite Ascii.eqb_refl. reflexivity.
  - destruct (Ascii.eqb c sep); [rewrite IH; reflexivity|].
    rewrite IH. destruct (Split s sep) eqn:E; [|reflexivity].
    rewrite Split_fields in E. discriminate E.
Qed.

(** X13.  A line that starts with none of the four keys and whose own
    key is empty can be taken out of the policy without any change to
    what the block prints and returns; the empty line is such a line,
    so a newline at the end of the policy changes nothing. *)
Theorem unseen_lines_change_nothing :
  (forall before after mxRecords line,
      ignorable line = true ->
      validateRows (before ++ line :: after) mxRecords
      = validateRows (before ++ after) mxRecords)
  /\ (forall policyResource mxRecords,
         validate (policyResource ++ String NL EmptyString) mxRecords
         = validate policyResource mxRecords).
Proof.
  split; [exact validateRows_without|].
  intros policyResource mxRecords. unfold validate.
  rewrite Split_append_sep.
  rewrite (validateRows_without _ [] mxRecords EmptyString eq_refl).
  rewrite app_nil_r. reflexivity.
Qed.

(** A line of blanks between two lines of the complete policy. *)
Lemma unseen_lines_change_nothing_witness :
  validateRows (["version: STSv1"; "mode: enforce"]
                ++ "   " :: ["max_age: 86400"; "mx: mx1.example.com"])
               twoExchanges
  = validateRows (["version: STSv1"; "mode: enforce"]
                  ++ ["max_age: 86400"; "mx: mx1.example.com"])
                 twoExchanges.
Proof.
  apply (proj1 unseen_lines_change_nothing). reflexivity.
Defined.

(** *** When the block panics *)

Lemma forallb_false_exists {A} (f : A -> bool) (l : list A) :
  forallb f l = false -> exists a, In a l /\ f a = false.
Proof.
  induction l as [|a l IH]; cbn [forallb]; [discriminate|].
  destruct (f a) eqn:F; cbn [andb].
  - intros H. destruct (IH H) as [b [I Fb]]. exists b. split; [right|];
      assumption.
  - intros _. exists a. split; [left; reflexivity|exact F].
Qed.

(** X14.  The block panics in exactly four cases: the first line that
    starts with [version] has no [':']; the first line that starts with
    [mode] has no [':']; some line that starts with [mx] has no [':'];
    or [mxHasMatch] panics on a non-empty resolved record.  No other
    line can make it panic, in particular no max_age line and no line
    with an unknown key. *)
Theorem validation_panics_exactly_when (policyRows mxRecords : list string) :
  Run.returned (validateRows policyRows mxRecords) = false <->
  (exists line,
      find (fun l => HasPrefix l "version") policyRows = Some line
      /\ hasColon line = false)
  \/ (exists line,
         find (fun l => HasPrefix l "mode") policyRows = Some line
         /\ hasColon line = false)
  \/ (exists line,
         In line policyRows /\ HasPrefix line "mx" = true
         /\ hasColon line = false)
  \/ (exists mxs record,
         valuesForKey policyRows "mx" = Some mxs
         /\ In record mxRecords /\ record <> EmptyString
         /\ mxHasMatch mxs record = None).
Proof.
  split.
  - intros R.
    destruct (valueForKey policyRows "version") as [version|] eqn:Hv.
    2: { left. apply valueForKey_panics_iff. exact Hv. }
    destruct (valueForKey policyRows "mode") as [mode|] eqn:Hm.
    2: { right. left. apply valueForKey_panics_iff. exact Hm. }
    destruct (valuesForKey policyRows "mx") as [mxs|] eqn:Hx.
    2: { right. right. left. apply valuesForKey_panics_iff. exact Hx. }
    destruct (forallb (crossCheckReturns mxs) mxRecords) eqn:C.
    { rewrite (validateRows_returns _ _ _ _ _ _ Hv Hm
                 (allKeys_returns _) Hx C) in R. discriminate R. }
    right. right. right.
    apply forallb_false_exists in C as [record [I C]].
    exists mxs, record. unfold crossCheckReturns in C.
    destruct record as [|c record]; [discriminate C|].
    cbn [String.length Nat.ltb Nat.leb negb orb] in C.
    destruct (mxHasMatch mxs (String c record)); [discriminate C|].
    repeat split; [exact I|discriminate].
  - intros H. destruct (Run.returned (validateRows policyRows mxRecords))
      eqn:R; [|reflexivity].
    apply validateRows_returned in R
      as [version [mode [mxs [Hv [Hm [Hx C]]]]]].
    destruct H as [H|[H|[H|[mxs' [record [Hx' [I [N M]]]]]]]].
    + apply valueForKey_panics_iff in H. congruence.
    + apply valueForKey_panics_iff in H. congruence.
    + apply valuesForKey_panics_iff in H. congruence.
    + assert (mxs' = mxs) as -> by congruence.
      rewrite forallb_forall in C. specialize (C _ I).
      unfold crossCheckReturns in C. rewrite M in C.
      destruct record as [|c record]; [congruence|discriminate C].
Qed.
